(** * pickmyelective: the retrieval-and-ranking core, embedded in Rocq

    The development follows the Python sources of the RAG service:
    - [processing/preprocessor.py]: WQB parsing, exclusion rules and the
      elective score;
    - [transform/transformer.py]: the text of the indexed document;
    - [index/indexer.py]: the flat metadata stored with each course;
    - [query/engine.py]: interpretation, retrieval, post-filters,
      ranking and the final response.

    Conventions of the embedding.
    - Python [int] is [Z]; Python [float] (scores, distances, thresholds)
      is an exact rational [Q]: the properties below are about order,
      clamping and decimal rounding, and are stated on exact values.
    - Python [str] is [string]; white space, letters and digits are the
      ASCII ones; [list] is [list]; a [dict] used as a map is a [gmap];
      [None]-able values are [option].
    - A function that can raise returns [result]; the external services
      (language model, embedding model, vector index, [json.loads]) are
      parameters of the functions that call them. *)

From Stdlib Require Import ZArith QArith Qround Qminmax Ascii String List Lia Bool.
From Stdlib Require Import DecimalString DecimalPos Sorted Permutation Lqa.
From stdpp Require Import gmap strings list fin_maps.

Set Warnings "-register-all".

Open Scope string_scope.
Open Scope list_scope.
Open Scope Z_scope.

(** ** Exceptions and results *)

Inductive exn : Type :=
  | JSONDecodeError
  | AttributeError
  | ValidationError
  | ServiceError (msg : string).

Inductive result (A : Type) : Type :=
  | Ok (a : A)
  | Raise (e : exn).
Arguments Ok {A} a.
Arguments Raise {A} e.

Definition rbind {A B} (r : result A) (k : A -> result B) : result B :=
  match r with
  | Ok a => k a
  | Raise e => Raise e
  end.

Notation "'let*' x ':=' r 'in' k" := (rbind r (fun x => k))
  (at level 10, x name, r at level 100, k at level 200).

Fixpoint rmap_list {A B} (f : A -> result B) (l : list A) : result (list B) :=
  match l with
  | [] => Ok []
  | a :: l' =>
      let* b := f a in
      let* bs := rmap_list f l' in
      Ok (b :: bs)
  end.

(** ** processing/models.py *)

Inductive WQBCode : Type := WQB_Q | WQB_W | B_SCI | B_SOC | B_HUM.

Definition WQBCode_value (c : WQBCode) : string :=
  match c with
  | WQB_Q => "Q"
  | WQB_W => "W"
  | B_SCI => "B-Sci"
  | B_SOC => "B-Soc"
  | B_HUM => "B-Hum"
  end.

Inductive PrerequisiteLevel : Type := NONE | RECOMMENDED | REQUIRED.

Definition PrerequisiteLevel_value (p : PrerequisiteLevel) : string :=
  match p with
  | NONE => "none"
  | RECOMMENDED => "recommended"
  | REQUIRED => "required"
  end.

Inductive ExclusionReason : Type :=
  | GRADUATE | UPPER_DIVISION | NO_DESCRIPTION | COOP | PRACTICUM | THESIS
  | DIRECTED_STUDIES | CAPSTONE | SPECIAL_TOPICS | PROJECT | HONOURS.

Module ProcessedCourse.
Record t : Type := mk {
  course_code : string;
  department : string;
  course_number : string;
  level : Z;
  title : string;
  description : string;
  units : Z;
  wqb : list WQBCode;
  has_wqb : bool;
  prerequisites_raw : string;
  prerequisite_level : PrerequisiteLevel;
  has_prerequisites : bool;
  campuses : list string;
  delivery_methods : list string;
  instructors : list string;
  sections : list string;
  total_capacity : Z;
  elective_score : Z;
  is_excluded : bool;
  exclusion_reason : option ExclusionReason
}.
End ProcessedCourse.

(** ** Python strings *)

Definition len {A} (l : list A) : Z := Z.of_nat (length l).

(** [sub in s] on strings. *)
Fixpoint str_in (sub s : string) : bool :=
  String.prefix sub s
  || match s with
     | EmptyString => false
     | String _ s' => str_in sub s'
     end.

(** The ASCII characters that [str.strip()] and [\s] treat as white space. *)
Definition is_space (c : ascii) : bool :=
  let n := nat_of_ascii c in
  ((9 <=? n) && (n <=? 13) || (28 <=? n) && (n <=? 32))%nat.

Fixpoint lstrip (s : string) : string :=
  match s with
  | EmptyString => EmptyString
  | String c s' => if is_space c then lstrip s' else s
  end.

Fixpoint rstrip (s : string) : string :=
  match s with
  | EmptyString => EmptyString
  | String c s' =>
      match rstrip s' with
      | EmptyString => if is_space c then EmptyString else String c EmptyString
      | r => String c r
      end
  end.

Definition strip (s : string) : string := rstrip (lstrip s).

Definition nonempty (s : string) : bool :=
  match s with EmptyString => false | _ => true end.

(** [s.split(sep)] for a non-empty separator: a left-to-right scan for
    non-overlapping occurrences; [skip] counts the characters of a matched
    separator that are still to be passed over. *)
Fixpoint split_go (sep : string) (skip : nat) (s : string) : list string :=
  match s with
  | EmptyString => [EmptyString]
  | String c s' =>
      match skip with
      | S k => split_go sep k s'
      | O =>
          if String.prefix sep s
          then EmptyString :: split_go sep (String.length sep - 1) s'
          else match split_go sep 0 s' with
               | p :: ps => String c p :: ps
               | [] => [String c EmptyString]
               end
      end
  end.

Definition split (sep s : string) : list string := split_go sep 0 s.

(** [sep.join(l)] *)
Definition join (sep : string) (l : list string) : string := String.concat sep l.

(** [s[:n]] *)
Definition take_str (n : nat) (s : string) : string := String.substring 0 n s.

Definition nl : ascii := "010"%char.
Definition newline : string := String nl EmptyString.
Definition blank_line : string := newline +:+ newline.

(** ** Regular expressions ([re.search], truth value only)

    The patterns of the preprocessor use literals, character classes,
    alternation, [?], [*], the word boundary and the end anchor.  Only
    whether a match exists is used, so the matcher decides membership and
    the order in which alternatives are tried does not matter. *)

Inductive regex : Type :=
  | Eps
  | Cls (p : ascii -> bool)
  | Cat (a b : regex)
  | Alt (a b : regex)
  | Star (a : regex)
  | WordBoundary
  | EndAnchor.

Definition is_digit (c : ascii) : bool :=
  let n := nat_of_ascii c in ((48 <=? n) && (n <=? 57))%nat.

Definition is_upper (c : ascii) : bool :=
  let n := nat_of_ascii c in ((65 <=? n) && (n <=? 90))%nat.

Definition is_lower (c : ascii) : bool :=
  let n := nat_of_ascii c in ((97 <=? n) && (n <=? 122))%nat.

(** [\w] on ASCII *)
Definition is_word (c : ascii) : bool :=
  is_digit c || is_upper c || is_lower c || (nat_of_ascii c =? 95)%nat.

Definition to_lower (c : ascii) : ascii :=
  if is_upper c then ascii_of_nat (nat_of_ascii c + 32) else c.

Definition is_word_opt (o : option ascii) : bool :=
  match o with Some c => is_word c | None => false end.

Definition head_char (s : string) : option ascii :=
  match s with EmptyString => None | String c _ => Some c end.

(** [rmatch r prev s k]: some prefix of [s] matches [r] (the character
    before [s] being [prev]) and the continuation [k] accepts the rest. *)
Fixpoint rmatch (r : regex) (prev : option ascii) (s : string)
    (k : option ascii -> string -> bool) {struct r} : bool :=
  match r with
  | Eps => k prev s
  | Cls p =>
      match s with
      | String c s' => p c && k (Some c) s'
      | EmptyString => false
      end
  | Cat a b => rmatch a prev s (fun prev' s' => rmatch b prev' s' k)
  | Alt a b => rmatch a prev s k || rmatch b prev s k
  | Star a =>
      (fix star (fuel : nat) (prev : option ascii) (s : string) : bool :=
         k prev s
         || match fuel with
            | O => false
            | S fuel' =>
                rmatch a prev s (fun prev' s' =>
                  (String.length s' <? String.length s)%nat && star fuel' prev' s')
            end) (String.length s) prev s
  | WordBoundary =>
      xorb (is_word_opt prev) (is_word_opt (head_char s)) && k prev s
  | EndAnchor =>
      (match s with
       | EmptyString => true
       | String c EmptyString => (nat_of_ascii c =? 10)%nat
       | _ => false
       end) && k prev s
  end.

Fixpoint search_from (r : regex) (prev : option ascii) (s : string) : bool :=
  rmatch r prev s (fun _ _ => true)
  || match s with
     | EmptyString => false
     | String c s' => search_from r (Some c) s'
     end.

(** [re.search(r, s)] is not [None] *)
Definition re_search (r : regex) (s : string) : bool := search_from r None s.

(** A literal; with [ci] (the [re.IGNORECASE] flag) letters match in
    either case. *)
Fixpoint lit (ci : bool) (w : string) : regex :=
  match w with
  | EmptyString => Eps
  | String c w' =>
      Cat (Cls (fun x => if ci then Ascii.eqb (to_lower x) (to_lower c)
                         else Ascii.eqb x c))
          (lit ci w')
  end.

Definition opt (r : regex) : regex := Alt r Eps.

Fixpoint alts (rs : list regex) : regex :=
  match rs with
  | [] => Cls (fun _ => false)
  | [r] => r
  | r :: rs' => Alt r (alts rs')
  end.

Definition seq_re (rs : list regex) : regex := fold_right Cat Eps rs.

(** ** processing/preprocessor.py *)

Global Instance WQBCode_eq_dec : EqDecision WQBCode.
Proof. solve_decision. Defined.

Definition WQB_PATTERNS : list (string * WQBCode) :=
  [ ("Quantitative", WQB_Q);
    ("Writing", WQB_W);
    ("Breadth-Science", B_SCI);
    ("Breadth-Sci", B_SCI);
    ("B-Sci", B_SCI);
    ("Breadth-Social", B_SOC);
    ("B-Soc", B_SOC);
    ("Breadth-Humanities", B_HUM);
    ("Breadth-Hum", B_HUM);
    ("B-Hum", B_HUM) ].

Definition parse_wqb (designation : string) : list WQBCode :=
  if negb (nonempty designation) then []
  else
    fold_left
      (fun codes '(pattern, code) =>
         if str_in pattern designation && negb (bool_decide (code ∈ codes))
         then codes ++ [code] else codes)
      WQB_PATTERNS [].

Definition EXCLUSION_PATTERNS : list (regex * ExclusionReason) :=
  let i := lit true in
  [ (seq_re [i "co"; opt (i "-"); i "op"; WordBoundary], COOP);
    (seq_re [WordBoundary; i "practicum"; WordBoundary], PRACTICUM);
    (seq_re [WordBoundary; i "thesis"; WordBoundary], THESIS);
    (seq_re [i "directed "; alts [i "study"; i "studies"; i "reading"]],
     DIRECTED_STUDIES);
    (seq_re [WordBoundary; i "capstone"; WordBoundary], CAPSTONE);
    (i "special topics", SPECIAL_TOPICS);
    (seq_re [i "honours "; alts [i "essay"; i "project"; i "thesis"]], HONOURS);
    (seq_re [opt (alts [i "graduate "; i "grad "]); i "project";
             Star (Cls is_space);
             opt (alts [i "i"; i "ii"; i "iii"; i "iv"; i "v";
                        i "1"; i "2"; i "3"; i "4"; i "5"]);
             EndAnchor], PROJECT) ].

Definition check_exclusion (course : ProcessedCourse.t) : option ExclusionReason :=
  if 600 <=? ProcessedCourse.level course then Some GRADUATE
  else if 400 <=? ProcessedCourse.level course then Some UPPER_DIVISION
  else if negb (nonempty (strip (ProcessedCourse.description course)))
  then Some NO_DESCRIPTION
  else
    let title := ProcessedCourse.title course in
    (fix loop (ps : list (regex * ExclusionReason)) : option ExclusionReason :=
       match ps with
       | [] => None
       | (pattern, reason) :: ps' =>
           if re_search pattern title then Some reason else loop ps'
       end) EXCLUSION_PATTERNS.

Definition calculate_elective_score (course : ProcessedCourse.t) : Z :=
  let score := 0 in
  let score :=
    if negb (ProcessedCourse.has_prerequisites course) then score + 5 else score in
  let score := score + 5 * len (ProcessedCourse.wqb course) in
  let score :=
    if ProcessedCourse.level course =? 100 then score + 5
    else if ProcessedCourse.level course =? 200 then score + 3
    else score in
  let score :=
    if 200 <=? ProcessedCourse.total_capacity course then score + 3
    else if 100 <=? ProcessedCourse.total_capacity course then score + 2
    else if 50 <=? ProcessedCourse.total_capacity course then score + 1
    else score in
  let score :=
    match ProcessedCourse.instructors course with
    | [] => score
    | _ :: _ => score + 1
    end in
  let score :=
    if 1 <? len (ProcessedCourse.delivery_methods course) then score + 1 else score in
  let score :=
    if 1 <? len (ProcessedCourse.campuses course) then score + 1 else score in
  score.

Definition set_excluded (reason : ExclusionReason) (c : ProcessedCourse.t)
  : ProcessedCourse.t :=
  let 'ProcessedCourse.mk a b c0 d e f g h i j k l m n o p q r _ _ := c in
  ProcessedCourse.mk a b c0 d e f g h i j k l m n o p q r true (Some reason).

Definition set_elective_score (score : Z) (c : ProcessedCourse.t)
  : ProcessedCourse.t :=
  let 'ProcessedCourse.mk a b c0 d e f g h i j k l m n o p q _ s t := c in
  ProcessedCourse.mk a b c0 d e f g h i j k l m n o p q score s t.

(** Step 4 of [CoursePreprocessor.process]: the processed courses are
    split into elective candidates, which receive their score, and
    excluded courses, which receive the reason. *)
Fixpoint apply_exclusion_filters (processed : list ProcessedCourse.t)
  : list ProcessedCourse.t * list ProcessedCourse.t :=
  match processed with
  | [] => ([], [])
  | course :: rest =>
      let '(electives, excluded) := apply_exclusion_filters rest in
      match check_exclusion course with
      | Some reason => (electives, set_excluded reason course :: excluded)
      | None =>
          (set_elective_score (calculate_elective_score course) course :: electives,
           excluded)
      end
  end.

(** ** transform/models.py and transform/transformer.py *)

Module CourseMetadata.
Record t : Type := mk {
  department : string;
  level : Z;
  units : Z;
  campuses : list string;
  wqb : list string;
  has_wqb : bool;
  has_prerequisites : bool;
  prerequisite_level : string;
  prerequisites_raw : string;
  delivery_methods : list string;
  instructors : list string;
  sections : list string;
  elective_score : Z;
  total_capacity : Z
}.
End CourseMetadata.

Module TransformedCourse.
Record t : Type := mk {
  id : string;
  course_code : string;
  title : string;
  document : string;
  keywords : list string;
  metadata : CourseMetadata.t
}.
End TransformedCourse.

(** [str(n)] for an [int] *)
Definition str_of_int (n : Z) : string :=
  NilZero.string_of_int (Z.to_int n).

Definition format_document_text (course : ProcessedCourse.t) (keywords : list string)
  : string :=
  let lines :=
    [ProcessedCourse.course_code course +:+ " - " +:+ ProcessedCourse.title course] in
  let meta_parts :=
    [ "Department: " +:+ ProcessedCourse.department course;
      "Level: " +:+ str_of_int (ProcessedCourse.level course);
      "Units: " +:+ str_of_int (ProcessedCourse.units course) ] in
  let lines := lines ++ [join " | " meta_parts] in
  let avail_parts := [] in
  let avail_parts :=
    match ProcessedCourse.campuses course with
    | [] => avail_parts
    | cs => avail_parts ++ ["Campus: " +:+ join ", " cs]
    end in
  let avail_parts :=
    match ProcessedCourse.delivery_methods course with
    | [] => avail_parts
    | ds => avail_parts ++ ["Delivery: " +:+ join ", " ds]
    end in
  let lines :=
    match avail_parts with
    | [] => lines
    | _ => lines ++ [join " | " avail_parts]
    end in
  let wqb_str :=
    match ProcessedCourse.wqb course with
    | [] => "None"
    | ws => join ", " (map WQBCode_value ws)
    end in
  let prereq_str :=
    if negb (ProcessedCourse.has_prerequisites course) then "None"
    else if nonempty (ProcessedCourse.prerequisites_raw course) then
      let prereq_str := take_str 200 (ProcessedCourse.prerequisites_raw course) in
      if (200 <? String.length (ProcessedCourse.prerequisites_raw course))%nat
      then prereq_str +:+ "..." else prereq_str
    else "Required" in
  let lines := lines ++ ["WQB: " +:+ wqb_str +:+ " | Prerequisites: " +:+ prereq_str] in
  let lines := lines ++ [""] in
  let lines := lines ++ [ProcessedCourse.description course] in
  let lines :=
    match keywords with
    | [] => lines
    | _ => lines ++ [""; "Good for students interested in: " +:+ join ", " keywords]
    end in
  join newline lines.

Definition extract_metadata (course : ProcessedCourse.t) : CourseMetadata.t :=
  {| CourseMetadata.department := ProcessedCourse.department course;
     CourseMetadata.level := ProcessedCourse.level course;
     CourseMetadata.units := ProcessedCourse.units course;
     CourseMetadata.campuses := ProcessedCourse.campuses course;
     CourseMetadata.wqb := map WQBCode_value (ProcessedCourse.wqb course);
     CourseMetadata.has_wqb := ProcessedCourse.has_wqb course;
     CourseMetadata.has_prerequisites := ProcessedCourse.has_prerequisites course;
     CourseMetadata.prerequisite_level :=
       PrerequisiteLevel_value (ProcessedCourse.prerequisite_level course);
     CourseMetadata.prerequisites_raw := ProcessedCourse.prerequisites_raw course;
     CourseMetadata.delivery_methods := ProcessedCourse.delivery_methods course;
     CourseMetadata.instructors := ProcessedCourse.instructors course;
     CourseMetadata.sections := ProcessedCourse.sections course;
     CourseMetadata.elective_score := ProcessedCourse.elective_score course;
     CourseMetadata.total_capacity := ProcessedCourse.total_capacity course |}.

(** ** index/indexer.py: the flat metadata of the vector index *)

(** A value of the flat metadata: ChromaDB stores strings, integers and
    booleans. *)
Inductive MetaValue : Type :=
  | MStr (s : string)
  | MInt (n : Z)
  | MBool (b : bool).

Definition _prepare_metadata (course : TransformedCourse.t) : gmap string MetaValue :=
  let meta := TransformedCourse.metadata course in
  list_to_map
    [ ("course_code", MStr (TransformedCourse.course_code course));
      ("title", MStr (TransformedCourse.title course));
      ("department", MStr (CourseMetadata.department meta));
      ("level", MInt (CourseMetadata.level meta));
      ("units", MInt (CourseMetadata.units meta));
      ("elective_score", MInt (CourseMetadata.elective_score meta));
      ("total_capacity", MInt (CourseMetadata.total_capacity meta));
      ("has_wqb", MBool (CourseMetadata.has_wqb meta));
      ("has_prerequisites", MBool (CourseMetadata.has_prerequisites meta));
      ("campuses", MStr (join "," (CourseMetadata.campuses meta)));
      ("wqb", MStr (join "," (CourseMetadata.wqb meta)));
      ("delivery_methods", MStr (join "," (CourseMetadata.delivery_methods meta)));
      ("prerequisite_level", MStr (CourseMetadata.prerequisite_level meta));
      ("keywords", MStr (join "," (TransformedCourse.keywords course))) ].

(** The keys that [_prepare_metadata] writes, in the order of its
    dictionary. *)
Definition stored_keys : list string :=
  [ "course_code"; "title"; "department"; "level"; "units"; "elective_score";
    "total_capacity"; "has_wqb"; "has_prerequisites"; "campuses"; "wqb";
    "delivery_methods"; "prerequisite_level"; "keywords" ].

(** ** query/models.py *)

Module QueryFilters.
Record t : Type := mk {
  campus : option (list string);
  wqb : option (list string);
  max_level : option Z;
  no_prerequisites : option bool;
  exclude_departments : option (list string)
}.
End QueryFilters.

Module QueryInterpretation.
Record t : Type := mk {
  topics : list string;
  interpretation : string
}.
End QueryInterpretation.

Module CourseResult.
Record t : Type := mk {
  course_code : string;
  title : string;
  description : string;
  campus : list string;
  wqb : list string;
  units : Z;
  prerequisites : string;
  has_prerequisites : bool;
  instructor : string;
  delivery_methods : list string;
  relevance_score : Q;
  match_reason : string
}.
End CourseResult.

Module RecommendResponse.
Record t : Type := mk {
  success : bool;
  query_interpretation : string;
  courses : list CourseResult.t
}.
End RecommendResponse.

(** The model validates [relevance_score] with [ge=0.0, le=1.0]. *)
Definition CourseResult_validate (c : CourseResult.t) : result CourseResult.t :=
  if Qle_bool 0 (CourseResult.relevance_score c)
     && Qle_bool (CourseResult.relevance_score c) 1
  then Ok c else Raise ValidationError.

(** ** Python numbers *)

Definition Qltb (a b : Q) : bool := negb (Qle_bool b a).

(** [min(a, b)] keeps [a] unless [b < a]; [max(a, b)] keeps [a] unless
    [b > a]. *)
Definition py_min (a b : Q) : Q := if Qltb b a then b else a.
Definition py_max (a b : Q) : Q := if Qltb a b then b else a.

(** [round(x)] to the nearest integer, ties to the even one. *)
Definition round_half_even (x : Q) : Z :=
  let f := Qfloor x in
  let r := (x - inject_Z f)%Q in
  if Qltb r (1 # 2) then f
  else if Qltb (1 # 2) r then f + 1
  else if Z.even f then f else f + 1.

(** [round(x, 3)] *)
Definition round3 (x : Q) : Q := Qmake (round_half_even (x * 1000)) 1000.

(** [l[:n]], also for a negative [n] *)
Definition slice_to {A} (n : Z) (l : list A) : list A :=
  if 0 <=? n then firstn (Z.to_nat n) l
  else firstn (length l - Z.to_nat (- n)) l.

(** A Python list is true when it is not empty; [None] is false. *)
Definition truthy {A} (o : option (list A)) : bool :=
  match o with
  | Some (_ :: _) => true
  | _ => false
  end.

Definition str_mem (x : string) (l : list string) : bool := existsb (String.eqb x) l.

(** ** Reading the flat metadata: [metadata.get(key, default)]

    The index returns what the indexer stored, so a key that the engine
    reads as a string holds a string, and likewise for integers and
    booleans; the getters below are the typed readings. *)

Definition get_str (m : gmap string MetaValue) (key default : string) : string :=
  match m !! key with Some (MStr s) => s | _ => default end.

Definition get_int (m : gmap string MetaValue) (key : string) (default : Z) : Z :=
  match m !! key with Some (MInt n) => n | _ => default end.

Definition get_bool (m : gmap string MetaValue) (key : string) (default : bool) : bool :=
  match m !! key with Some (MBool b) => b | _ => default end.

(** ** query/engine.py *)

Definition RELEVANCE_WEIGHT : Q := 0.80.
Definition ELECTIVE_WEIGHT : Q := 0.20.
Definition MAX_ELECTIVE_SCORE : Z := 25.

(** A prompt is a template of the engine filled with its arguments. *)
Inductive Prompt : Type :=
  | INTERPRET_PROMPT (query : string)
  | MATCH_REASON_PROMPT (query course_code title description : string).

Record GenerateContentConfig : Type := {
  max_output_tokens : Z;
  temperature : Q
}.

(** The [where] clause passed to the index. *)
Inductive where_clause : Type :=
  | LevelLte (max_level : Z)
  | HasPrerequisitesEq (b : bool)
  | AndAll (conditions : list where_clause).

(** One entry of the answer of [collection.query]: the parallel lists
    [ids], [documents], [metadatas] and [distances], read at one index. *)
Record IndexEntry : Type := {
  entry_id : string;
  entry_document : string;
  entry_metadata : gmap string MetaValue;
  entry_distance : Q
}.

(** The clients held by a [QueryEngine]; each call returns or raises.
    [generate_content] answers with [response.text], which may be
    [None]. *)
Record QueryEngine : Type := {
  generate_content : Prompt -> GenerateContentConfig -> result (option string);
  embeddings_create : string -> result (list Q);
  collection_query : list Q -> option where_clause -> Z -> result (list IndexEntry)
}.

(** The dictionary that [search_courses] builds for each entry. *)
Record Candidate : Type := {
  id : string;
  document : string;
  metadata : gmap string MetaValue;
  relevance_score : Q;
  combined_score : Q
}.

(** The value of [json.loads]. *)
Inductive json : Type :=
  | JNull
  | JBool (b : bool)
  | JNum (x : Q)
  | JStr (s : string)
  | JArr (items : list json)
  | JObj (members : list (string * json)).

(** [data.get(key, default)] on a decoded object *)
Fixpoint json_get (members : list (string * json)) (key : string) (default : json)
  : json :=
  match members with
  | [] => default
  | (k, v) :: rest => if String.eqb k key then v else json_get rest key default
  end.

(** Validation of [topics: list[str]] and [interpretation: str]. *)
Fixpoint validate_str_list (items : list json) : result (list string) :=
  match items with
  | [] => Ok []
  | JStr s :: rest => let* ss := validate_str_list rest in Ok (s :: ss)
  | _ :: _ => Raise ValidationError
  end.

Definition QueryInterpretation_validate (topics interpretation : json)
  : result QueryInterpretation.t :=
  match topics, interpretation with
  | JArr items, JStr i =>
      let* ts := validate_str_list items in
      Ok (QueryInterpretation.mk ts i)
  | _, _ => Raise ValidationError
  end.

(** [text or default] *)
Definition text_or (text : option string) (default : string) : string :=
  match text with
  | Some (String c s) => String c s
  | _ => default
  end.

(** The configurations of the two model calls. *)
Definition interpret_config : GenerateContentConfig :=
  {| max_output_tokens := 200; temperature := 0.2 |}.

Definition match_reason_config : GenerateContentConfig :=
  {| max_output_tokens := 100; temperature := 0.5 |}.

Section Engine.

(** [json.loads]: [None] stands for [json.JSONDecodeError]. *)
Variable json_loads : string -> option json.

Variable self : QueryEngine.

Definition interpret_query (query : string) : result QueryInterpretation.t :=
  let prompt := INTERPRET_PROMPT query in
  let* text :=
    generate_content self prompt interpret_config in
  let content := text_or text "{}" in
  match json_loads content with
  | Some data =>
      match data with
      | JObj members =>
          QueryInterpretation_validate
            (json_get members "topics" (JArr []))
            (json_get members "interpretation" (JStr ""))
      | _ => Raise AttributeError
      end
  | None =>
      Ok (QueryInterpretation.mk [query]
            ("Looking for courses related to: " +:+ query))
  end.

Definition embed_query (text : string) : result (list Q) :=
  embeddings_create self text.

Definition build_filters (filters : QueryFilters.t) : option where_clause :=
  let conditions := [] in
  let conditions :=
    match QueryFilters.max_level filters with
    | Some max_level => conditions ++ [LevelLte max_level]
    | None => conditions
    end in
  let conditions :=
    match QueryFilters.no_prerequisites filters with
    | Some true => conditions ++ [HasPrerequisitesEq false]
    | _ => conditions
    end in
  match conditions with
  | [] => None
  | [c] => Some c
  | _ => Some (AndAll conditions)
  end.

(** The comma-separated values of a metadata string:
    [[c.strip() for c in s.split(",") if c.strip()]] *)
Definition split_values (s : string) : list string :=
  map strip (List.filter (fun c => nonempty (strip c)) (split "," s)).

Fixpoint _post_filter_courses (courses : list Candidate) (filters : QueryFilters.t)
  : list Candidate :=
  match courses with
  | [] => []
  | course :: rest =>
      let metadata := metadata course in
      let filtered := _post_filter_courses rest filters in
      let campus_drop :=
        match QueryFilters.campus filters with
        | Some (c0 :: cs) =>
            let course_campuses := split_values (get_str metadata "campuses" "") in
            negb (existsb (fun c => str_mem c course_campuses) (c0 :: cs))
        | _ => false
        end in
      if campus_drop then filtered
      else
        let wqb_drop :=
          match QueryFilters.wqb filters with
          | Some (w0 :: ws) =>
              let course_wqb := split_values (get_str metadata "wqb" "") in
              negb (existsb (fun w => str_mem w course_wqb) (w0 :: ws))
          | _ => false
          end in
        if wqb_drop then filtered
        else
          let dept_drop :=
            match QueryFilters.exclude_departments filters with
            | Some (d0 :: ds) => str_mem (get_str metadata "department" "") (d0 :: ds)
            | _ => false
            end in
          if dept_drop then filtered
          else course :: filtered
  end.

(** [courses.sort(key=..., reverse=True)]: Python's sort is stable, also
    with [reverse=True] (elements with equal keys keep their order);
    under a total order on the keys that fixes the result, computed
    here by insertion. *)
Fixpoint insert_desc {A} (key : A -> Q) (x : A) (l : list A) : list A :=
  match l with
  | [] => [x]
  | y :: l' =>
      if Qle_bool (key y) (key x) then x :: y :: l'
      else y :: insert_desc key x l'
  end.

Definition sort_desc {A} (key : A -> Q) (l : list A) : list A :=
  fold_right (insert_desc key) [] l.

Definition fetch_count (filters : QueryFilters.t) (n_results : Z) : Z :=
  let has_list_filters :=
    truthy (QueryFilters.campus filters)
    || truthy (QueryFilters.wqb filters)
    || truthy (QueryFilters.exclude_departments filters) in
  let has_scalar_filters :=
    match QueryFilters.max_level filters with Some _ => true | None => false end
    || match QueryFilters.no_prerequisites filters with
       | Some true => true
       | _ => false
       end in
  if has_list_filters then Z.max 200 (n_results * 20)
  else if has_scalar_filters then n_results * 5
  else n_results.

(** The body of the loop over the entries returned by the index. *)
Definition to_candidate (e : IndexEntry) : Candidate :=
  let metadata := entry_metadata e in
  let distance := entry_distance e in
  let relevance_score := py_max 0 (py_min 1 (1 - distance)) in
  let elective_score := get_int metadata "elective_score" 0 in
  let normalized_elective := (inject_Z elective_score / inject_Z MAX_ELECTIVE_SCORE)%Q in
  let combined_score :=
    (RELEVANCE_WEIGHT * relevance_score + ELECTIVE_WEIGHT * normalized_elective)%Q in
  {| id := entry_id e;
     document := entry_document e;
     metadata := metadata;
     relevance_score := relevance_score;
     combined_score := combined_score |}.

(** What [search_courses] does with the answer of the index. *)
Definition rank_courses (results : list IndexEntry) (filters : QueryFilters.t)
    (n_results : Z) : list Candidate :=
  let courses := map to_candidate results in
  let courses := _post_filter_courses courses filters in
  let courses := sort_desc combined_score courses in
  slice_to n_results courses.

Definition search_courses (query_embedding : list Q) (filters : QueryFilters.t)
    (n_results : Z) : result (list Candidate) :=
  let where_filter := build_filters filters in
  let* results :=
    collection_query self query_embedding where_filter
      (fetch_count filters n_results) in
  Ok (rank_courses results filters n_results).

Definition generate_match_reason (query course_code title description : string)
  : result string :=
  let desc_truncated :=
    if (500 <? String.length description)%nat then take_str 500 description
    else description in
  let prompt := MATCH_REASON_PROMPT query course_code title desc_truncated in
  let* text :=
    generate_content self prompt match_reason_config in
  Ok (text_or text "Matches your search interests.").

(** The block of [recommend] that recovers the description from the
    document text. *)
Definition extract_description (document : string) : string :=
  if str_in blank_line document then
    match split blank_line document with
    | _ :: part1 :: _ => part1
    | _ => ""
    end
  else "".

(** [metadata.get(key, "").split(",") if metadata.get(key) else []] *)
Definition get_list (m : gmap string MetaValue) (key : string) : list string :=
  if nonempty (get_str m key "") then split "," (get_str m key "") else [].

(** The body of the loop of [recommend] over the surfaced candidates. *)
Definition build_course (query : string) (candidate : Candidate)
  : result CourseResult.t :=
  let metadata := metadata candidate in
  let campuses := get_list metadata "campuses" in
  let wqb := get_list metadata "wqb" in
  let delivery_methods := get_list metadata "delivery_methods" in
  let description := extract_description (document candidate) in
  let* match_reason :=
    generate_match_reason query
      (get_str metadata "course_code" "") (get_str metadata "title" "")
      description in
  let instructors := get_list metadata "instructors" in
  let instructor :=
    match instructors with
    | i0 :: _ => strip i0
    | [] => ""
    end in
  CourseResult_validate
    {| CourseResult.course_code := get_str metadata "course_code" "";
       CourseResult.title := get_str metadata "title" "";
       CourseResult.description := description;
       CourseResult.campus := campuses;
       CourseResult.wqb := wqb;
       CourseResult.units := get_int metadata "units" 0;
       CourseResult.prerequisites := get_str metadata "prerequisites_raw" "";
       CourseResult.has_prerequisites := get_bool metadata "has_prerequisites" false;
       CourseResult.instructor := instructor;
       CourseResult.delivery_methods := delivery_methods;
       CourseResult.relevance_score := round3 (relevance_score candidate);
       CourseResult.match_reason := match_reason |}.

Definition recommend (query : string) (filters : QueryFilters.t) (top_k : Z)
    (min_relevance : Q) : result RecommendResponse.t :=
  let* interpretation := interpret_query query in
  let search_text := join " " (QueryInterpretation.topics interpretation) in
  let* query_embedding := embed_query search_text in
  let* candidates := search_courses query_embedding filters (top_k * 2) in
  let candidates :=
    List.filter (fun c => Qle_bool min_relevance (relevance_score c)) candidates in
  let* courses := rmap_list (build_course query) (slice_to top_k candidates) in
  Ok {| RecommendResponse.success := true;
        RecommendResponse.query_interpretation :=
          QueryInterpretation.interpretation interpretation;
        RecommendResponse.courses := courses |}.

End Engine.

(** ** tests/conftest.py: the four-course corpus and a mock engine *)

Module Fixture.

Definition sample (id doc code title dept campuses wqb delivery : string)
    (has_prereq has_wqb : bool) (score : Z) (prereq_level prereq_raw instr : string)
    (distance : Q) : IndexEntry :=
  {| entry_id := id;
     entry_document := doc;
     entry_metadata :=
       list_to_map
         [ ("course_code", MStr code); ("title", MStr title);
           ("department", MStr dept); ("level", MInt 100); ("units", MInt 3);
           ("campuses", MStr campuses); ("wqb", MStr wqb);
           ("has_prerequisites", MBool has_prereq); ("has_wqb", MBool has_wqb);
           ("delivery_methods", MStr delivery); ("elective_score", MInt score);
           ("prerequisite_level", MStr prereq_level);
           ("prerequisites_raw", MStr prereq_raw); ("instructors", MStr instr) ];
     entry_distance := distance |}.

Definition cmpt_120 : IndexEntry :=
  sample "cmpt-120-2026su"
    ("CMPT 120 - Introduction to Computing" +:+ newline +:+ "Department: CMPT"
     +:+ blank_line +:+ "Introduction to programming.")
    "CMPT 120" "Introduction to Computing" "CMPT" "Burnaby,Surrey" "" "In Person"
    false false 15 "none" "" "Dr. Smith" 0.3.

Definition psyc_100 : IndexEntry :=
  sample "psyc-100-2026su"
    ("PSYC 100 - Introduction to Psychology" +:+ newline +:+ "Department: PSYC"
     +:+ blank_line +:+ "Introduction to psychology.")
    "PSYC 100" "Introduction to Psychology" "PSYC" "Burnaby" "B-Soc" "In Person"
    false true 20 "none" "" "Dr. Jones" 0.35.

Definition macm_101 : IndexEntry :=
  sample "macm-101-2026su"
    ("MACM 101 - Discrete Mathematics" +:+ newline +:+ "Department: MACM"
     +:+ blank_line +:+ "Introduction to discrete math.")
    "MACM 101" "Discrete Mathematics" "MACM" "Burnaby" "Q" "In Person"
    true true 12 "required" "MATH 100" "Dr. Brown" 0.4.

Definition phil_100w : IndexEntry :=
  sample "phil-100w-2026su"
    ("PHIL 100W - Introduction to Philosophy" +:+ newline +:+ "Department: PHIL"
     +:+ blank_line +:+ "Introduction to philosophical thinking.")
    "PHIL 100W" "Introduction to Philosophy" "PHIL" "Burnaby,Vancouver" "W,B-Hum"
    "In Person,Online" false true 25 "none" "" "Dr. Wilson" 0.45.

Definition SAMPLE_COURSES : list IndexEntry :=
  [cmpt_120; psyc_100; macm_101; phil_100w].



(** A [json.loads] that is defined on the three texts the mock model
    produces, where it agrees with Python's. *)
Definition mock_json_loads (content : string) : option json :=
  if String.eqb content "{}" then Some (JObj [])
  else if String.eqb content "[]" then Some (JArr [])
  else None.

(** A mock engine: the model answers every prompt with [text], the
    embedding is constant and the index returns [courses], at most the
    requested number of them. *)
Definition mock_engine (text : option string) (courses : list IndexEntry)
  : QueryEngine :=
  {| generate_content := fun _ _ => Ok text;
     embeddings_create := fun _ => Ok [0.1; 0.1; 0.1]%Q;
     collection_query := fun _ _ n => Ok (slice_to n courses) |}.


(** A first-year course with three WQB designations, as the
    preprocessor builds it from the designation text. *)
Definition educ_100w : ProcessedCourse.t :=
  {| ProcessedCourse.course_code := "EDUC 100W";
     ProcessedCourse.department := "EDUC";
     ProcessedCourse.course_number := "100W";
     ProcessedCourse.level := 100;
     ProcessedCourse.title := "Selected Questions and Issues in Education";
     ProcessedCourse.description := "An introduction to a small but representative sample of basic questions and issues in education.";
     ProcessedCourse.units := 3;
     ProcessedCourse.wqb :=
       parse_wqb "Writing/Breadth-Humanities/Breadth-Social Sciences";
     ProcessedCourse.has_wqb := true;
     ProcessedCourse.prerequisites_raw := "";
     ProcessedCourse.prerequisite_level := NONE;
     ProcessedCourse.has_prerequisites := false;
     ProcessedCourse.campuses := ["Burnaby"; "Surrey"];
     ProcessedCourse.delivery_methods := ["In Person"];
     ProcessedCourse.instructors := ["Dr. Lee"];
     ProcessedCourse.sections := ["D100"; "D200"];
     ProcessedCourse.total_capacity := 250;
     ProcessedCourse.elective_score := 0;
     ProcessedCourse.is_excluded := false;
     ProcessedCourse.exclusion_reason := None |}.

End Fixture.

(** * Further functions of the pipeline *)

(** ** processing/preprocessor.py, continued *)

(** The body of the loop of [parse_wqb]. *)
Definition wqb_step (designation : string) (codes : list WQBCode)
    (entry : string * WQBCode) : list WQBCode :=
  let '(pattern, code) := entry in
  if str_in pattern designation && negb (bool_decide (code ∈ codes))
  then codes ++ [code] else codes.

(** [s.lower()] *)
Fixpoint lower (s : string) : string :=
  match s with
  | EmptyString => EmptyString
  | String c s' => String (to_lower c) (lower s')
  end.

(** [s.replace(old, new)] for a non-empty [old]: the occurrences are
    replaced from the left, without overlap; [skip] counts the characters
    of a matched occurrence that are still to be passed over. *)
Fixpoint replace_go (old new : string) (skip : nat) (s : string) : string :=
  match s with
  | EmptyString => EmptyString
  | String c s' =>
      match skip with
      | S k => replace_go old new k s'
      | O =>
          if String.prefix old s
          then new +:+ replace_go old new (String.length old - 1) s'
          else String c (replace_go old new 0 s')
      end
  end.

Definition replace (old new s : string) : string := replace_go old new 0 s.



(** [int(s)] for a string of decimal digits *)
Definition digit_value (c : ascii) : Z := Z.of_nat (nat_of_ascii c - 48).

Fixpoint int_of_digits_from (acc : Z) (s : string) : Z :=
  match s with
  | EmptyString => acc
  | String c s' => int_of_digits_from (acc * 10 + digit_value c) s'
  end.

Definition int_of_digits (s : string) : Z := int_of_digits_from 0 s.









(** [re.search(r"/(\d+)", s)]: the digits after the first [/] that is
    followed by a digit. *)
Fixpoint take_digits (s : string) : string :=
  match s with
  | EmptyString => EmptyString
  | String c s' => if is_digit c then String c (take_digits s') else EmptyString
  end.

Fixpoint search_slash_digits (s : string) : option string :=
  match s with
  | EmptyString => None
  | String c s' =>
      if Ascii.eqb c "/" && nonempty (take_digits s') then Some (take_digits s')
      else search_slash_digits s'
  end.

Definition parse_enrollment (enrollment : string) : Z :=
  if negb (nonempty enrollment) then 0
  else match search_slash_digits enrollment with
       | Some group1 => int_of_digits group1
       | None => 0
       end.






(** A section of the raw course file: the keys that the preprocessor
    reads, each with the default of its [get] when the key is missing. *)
Module RawSection.
Record t : Type := mk {
  course_code : string;
  section : string;
  department : string;
  title : string;
  units : Z;
  campus : string;
  enrollment : string;
  description : string;
  prerequisites : string;
  designation : string;
  delivery_method : string;
  instructor : string
}.
End RawSection.

(** The dictionary that [_merge_sections] returns. *)
Module MergedCourse.
Record t : Type := mk {
  course_code : string;
  department : string;
  title : string;
  description : string;
  units : Z;
  designation : string;
  prerequisites : string;
  campuses : list string;
  delivery_methods : list string;
  instructors : list string;
  sections : list string;
  total_capacity : Z
}.
End MergedCourse.

(** [max(sections, key=...)]: the first section of maximal key. *)
Fixpoint max_by {A} (key : A -> nat) (best : A) (l : list A) : A :=
  match l with
  | [] => best
  | x :: l' => if (key best <? key x)%nat then max_by key x l' else max_by key best l'
  end.

(** [list(set(v for v in values if v))]: the distinct non-empty values,
    in the order of the set, which Python leaves unspecified. *)
Definition distinct_values (values : list string) : list string :=
  elements (list_to_set (List.filter nonempty values) : gset string).

Definition sum_Z (l : list Z) : Z := fold_left Z.add l 0.

(** [_merge_sections] raises on an empty list of sections ([max] of an
    empty sequence); [_deduplicate] never calls it with one. *)
Definition _merge_sections (code : string) (sections : list RawSection.t)
  : option MergedCourse.t :=
  match sections with
  | [] => None
  | s0 :: rest =>
      let best :=
        max_by (fun s => String.length (RawSection.description s)) s0 rest in
      Some
        {| MergedCourse.course_code := code;
           MergedCourse.department := RawSection.department best;
           MergedCourse.title := RawSection.title best;
           MergedCourse.description := RawSection.description best;
           MergedCourse.units := RawSection.units best;
           MergedCourse.designation := RawSection.designation best;
           MergedCourse.prerequisites := RawSection.prerequisites best;
           MergedCourse.campuses := distinct_values (map RawSection.campus sections);
           MergedCourse.delivery_methods :=
             distinct_values (map RawSection.delivery_method sections);
           MergedCourse.instructors :=
             distinct_values (map RawSection.instructor sections);
           MergedCourse.sections :=
             List.filter nonempty (map RawSection.section sections);
           MergedCourse.total_capacity :=
             sum_Z (map (fun s => parse_enrollment (RawSection.enrollment s)) sections)
        |}
  end.

(** [course_map[code].append(course)] on a dictionary that keeps the
    order in which its keys were first inserted. *)
Fixpoint group_append (code : string) (course : RawSection.t)
    (course_map : list (string * list RawSection.t))
  : list (string * list RawSection.t) :=
  match course_map with
  | [] => [(code, [course])]
  | (k, sections) :: rest =>
      if String.eqb k code then (k, sections ++ [course]) :: rest
      else (k, sections) :: group_append code course rest
  end.

Definition group_sections (raw_courses : list RawSection.t)
  : list (string * list RawSection.t) :=
  fold_left
    (fun course_map course =>
       let code := RawSection.course_code course in
       if nonempty code then group_append code course course_map else course_map)
    raw_courses [].

Definition _deduplicate (raw_courses : list RawSection.t) : list MergedCourse.t :=
  omap (fun '(code, sections) => _merge_sections code sections)
    (group_sections raw_courses).






Fixpoint all_digits (s : string) : bool :=
  match s with
  | EmptyString => true
  | String c s' => is_digit c && all_digits s'
  end.

(** The invariant of the dictionary [course_map] of [_deduplicate]: its
    keys are distinct and non-empty, and every key holds a non-empty
    list of sections, all of that course code. *)
Definition well_grouped (course_map : list (string * list RawSection.t)) : Prop :=
  NoDup (map fst course_map)
  /\ Forall (fun g =>
               nonempty (fst g) = true
               /\ snd g <> []
               /\ Forall (fun s => RawSection.course_code s = fst g) (snd g))
       course_map.

Definition has_course_code (s : RawSection.t) : bool :=
  nonempty (RawSection.course_code s).

Definition section_capacity (s : RawSection.t) : Z :=
  parse_enrollment (RawSection.enrollment s).

(** ** transform/transformer.py, continued *)

Module TransformStats.
Record t : Type := mk {
  total_courses : Z;
  successful : Z;
  failed_keywords : Z;
  avg_document_length : Q;
  avg_keywords_per_course : Q;
  total_tokens_used : Z;
  llm_calls : Z
}.
End TransformStats.

(** [KEYWORD_PROMPT.format(...)], kept as its three arguments *)
Record KeywordPrompt : Type := {
  prompt_course_code : string;
  prompt_title : string;
  prompt_description : string
}.

(** The answer of [chat.completions.create]: the token count of
    [response.usage], when there is one, and the [message.content] of
    each choice. *)
Module ChatResponse.
Record t : Type := mk {
  usage : option Z;
  choices : list (option string)
}.
End ChatResponse.

(** [s[-1]]; [None] stands for the [IndexError] of an empty string. *)
Fixpoint last_char (s : string) : option ascii :=
  match s with
  | EmptyString => None
  | String c EmptyString => Some c
  | String _ s' => last_char s'
  end.

(** The default of [semester_suffixes.get(semester, semester[-1])] is
    computed before the look-up, so an empty semester raises whatever
    the table holds. *)
Definition generate_document_id (course : ProcessedCourse.t) (semester : string)
  : option string :=
  let code_parts := replace " " "-" (lower (ProcessedCourse.course_code course)) in
  match last_char semester with
  | None => None
  | Some c =>
      let suffix :=
        if String.eqb semester "1261" then "sp"
        else if String.eqb semester "1264" then "su"
        else if String.eqb semester "1267" then "fa"
        else String c EmptyString in
      let year := "2026" in
      Some (code_parts +:+ "-" +:+ year +:+ suffix)
  end.

(** [[k.strip().lower() for k in content.split(",") if k.strip()]] *)
Definition parse_keywords (content : string) : list string :=
  map (fun k => lower (strip k))
    (List.filter (fun k => nonempty (strip k)) (split "," content)).

Section Transformer.

(** The OpenAI client is a service with a state of its own: a call
    gives an answer or raises, and the next call may do otherwise. *)
Variable Client : Type.
Variable create : Client -> KeywordPrompt -> Client * result ChatResponse.t.

Record CourseTransformer : Type := {
  client : option Client;
  skip_llm : bool;
  stats : TransformStats.t
}.

Definition CourseTransformer_init (openai : Client) (skip_llm : bool)
  : CourseTransformer :=
  {| client := if negb skip_llm then Some openai else None;
     skip_llm := skip_llm;
     stats := TransformStats.mk 0 0 0 0 0 0 0 |}.

Definition with_stats (self : CourseTransformer) (stats : TransformStats.t)
  : CourseTransformer :=
  {| client := client self; skip_llm := skip_llm self; stats := stats |}.

Definition with_client (self : CourseTransformer) (c : Client)
  : CourseTransformer :=
  {| client := Some c; skip_llm := skip_llm self; stats := stats self |}.

Definition count_llm_call (s : TransformStats.t) : TransformStats.t :=
  let 'TransformStats.mk a b c d e f g := s in TransformStats.mk a b c d e f (g + 1).

Definition count_tokens (n : Z) (s : TransformStats.t) : TransformStats.t :=
  let 'TransformStats.mk a b c d e f g := s in TransformStats.mk a b c d e (f + n) g.

Definition count_failed_keywords (s : TransformStats.t) : TransformStats.t :=
  let 'TransformStats.mk a b c d e f g := s in TransformStats.mk a b (c + 1) d e f g.

(** The loop [for attempt in range(retries)] of [generate_keywords],
    with the attempts that are left as the recursion argument.  Every
    exception inside the [try] lands in the handler: the failure of the
    call, the [AttributeError] on a transformer without client, and
    the [IndexError] of [response.choices[0]] on an answer without
    choice, which comes after the call was counted. *)
Fixpoint generate_keywords_from (attempts : nat) (attempt retries : Z)
    (prompt : KeywordPrompt) (self : CourseTransformer)
  : list string * CourseTransformer :=
  match attempts with
  | O => ([], self)
  | S attempts' =>
      let handler (self : CourseTransformer) :=
        if attempt <? retries - 1
        then generate_keywords_from attempts' (attempt + 1) retries prompt self
        else ([], with_stats self (count_failed_keywords (stats self))) in
      match client self with
      | None => handler self
      | Some c =>
          let '(c, answer) := create c prompt in
          let self := with_client self c in
          match answer with
          | Raise _ => handler self
          | Ok response =>
              let self := with_stats self (count_llm_call (stats self)) in
              let self :=
                match ChatResponse.usage response with
                | Some total_tokens =>
                    with_stats self (count_tokens total_tokens (stats self))
                | None => self
                end in
              match ChatResponse.choices response with
              | [] => handler self
              | content :: _ =>
                  let content := text_or content "" in
                  let keywords := parse_keywords content in
                  (slice_to 8 keywords, self)
              end
          end
      end
  end.

Definition generate_keywords (self : CourseTransformer)
    (course : ProcessedCourse.t) (retries : Z)
  : list string * CourseTransformer :=
  let prompt :=
    {| prompt_course_code := ProcessedCourse.course_code course;
       prompt_title := ProcessedCourse.title course;
       prompt_description := take_str 1000 (ProcessedCourse.description course) |} in
  generate_keywords_from (Z.to_nat retries) 0 retries prompt self.

(** [transform_course]: the keywords are asked for first, so the
    statistics have moved when the identifier raises. *)
Definition transform_course (self : CourseTransformer)
    (course : ProcessedCourse.t) (semester : string) (with_keywords : bool)
  : option TransformedCourse.t * CourseTransformer :=
  let '(keywords, self) :=
    if with_keywords then generate_keywords self course 3 else ([], self) in
  match generate_document_id course semester with
  | None => (None, self)
  | Some doc_id =>
      (Some
         {| TransformedCourse.id := doc_id;
            TransformedCourse.course_code := ProcessedCourse.course_code course;
            TransformedCourse.title := ProcessedCourse.title course;
            TransformedCourse.document := format_document_text course keywords;
            TransformedCourse.keywords := keywords;
            TransformedCourse.metadata := extract_metadata course |},
       self)
  end.

(** The loop of [transform_all]; an exception of [transform_course]
    ends it. *)
Fixpoint transform_each (self : CourseTransformer)
    (courses : list ProcessedCourse.t) (semester : string) (with_keywords : bool)
  : option (list TransformedCourse.t) * CourseTransformer :=
  match courses with
  | [] => (Some [], self)
  | course :: rest =>
      match transform_course self course semester with_keywords with
      | (None, self) => (None, self)
      | (Some t, self) =>
          match transform_each self rest semester with_keywords with
          | (None, self) => (None, self)
          | (Some ts, self) => (Some (t :: ts), self)
          end
      end
  end.

Definition set_totals (total successful : Z) (s : TransformStats.t)
  : TransformStats.t :=
  let 'TransformStats.mk _ _ c d e f g := s in
  TransformStats.mk total successful c d e f g.

Definition set_averages (avg_len avg_kw : Q) (s : TransformStats.t)
  : TransformStats.t :=
  let 'TransformStats.mk a b c _ _ f g := s in
  TransformStats.mk a b c avg_len avg_kw f g.

Definition transform_all (self : CourseTransformer)
    (courses : list ProcessedCourse.t) (semester : string) (with_keywords : bool)
  : option (list TransformedCourse.t) * CourseTransformer :=
  let total := len courses in
  match transform_each self courses semester with_keywords with
  | (None, self) => (None, self)
  | (Some transformed, self) =>
      let self := with_stats self (set_totals total (len transformed) (stats self)) in
      let self :=
        match transformed with
        | [] => self
        | _ :: _ =>
            let doc_lengths :=
              map (fun c => Z.of_nat (String.length (TransformedCourse.document c)))
                transformed in
            let keyword_counts :=
              map (fun c => len (TransformedCourse.keywords c)) transformed in
            with_stats self
              (set_averages
                 (inject_Z (sum_Z doc_lengths) / inject_Z (len doc_lengths))%Q
                 (inject_Z (sum_Z keyword_counts) / inject_Z (len keyword_counts))%Q
                 (stats self))
        end in
      (Some transformed, self)
  end.

End Transformer.

Arguments client {Client}.
Arguments skip_llm {Client}.
Arguments stats {Client}.

(** A keyword without upper-case letter *)
Fixpoint lower_case (s : string) : bool :=
  match s with
  | EmptyString => true
  | String c s' => negb (is_upper c) && lower_case s'
  end.

(** The two counters of the statistics that [generate_keywords] moves *)
Definition calls {Client} (self : CourseTransformer Client) : Z :=
  TransformStats.llm_calls (stats self).

Definition failures {Client} (self : CourseTransformer Client) : Z :=
  TransformStats.failed_keywords (stats self).

(** What a run of the loop of [generate_keywords] leaves behind: the
    keywords read from an answer, or nothing; at most one call counted
    for each attempt; at most one failure counted, and only with an
    empty result. *)
Definition keywords_outcome {Client} (attempts : nat)
    (before : CourseTransformer Client)
    (r : list string * CourseTransformer Client) : Prop :=
  (fst r = [] \/ exists content, fst r = slice_to 8 (parse_keywords content))
  /\ skip_llm (snd r) = skip_llm before
  /\ calls before <= calls (snd r) <= calls before + Z.of_nat attempts
  /\ (failures (snd r) = failures before
      \/ failures (snd r) = failures before + 1 /\ fst r = [])
  /\ (client before = None -> client (snd r) = None /\ calls (snd r) = calls before).

(** A run that made at least one attempt ends in one of two ways. *)
Definition keywords_answered_or_failed {Client}
    (before : CourseTransformer Client)
    (r : list string * CourseTransformer Client) : Prop :=
  (exists content,
     fst r = slice_to 8 (parse_keywords content)
     /\ failures (snd r) = failures before)
  \/ fst r = [] /\ failures (snd r) = failures before + 1.

(** ** api/dependencies.py and api/routes.py *)

Module RecommendRequest.
Record t : Type := mk {
  query : string;
  filters : QueryFilters.t;
  top_k : Z;
  min_relevance : Q
}.
End RecommendRequest.







(** A course as it travels through the pipeline: transformed without
    keywords for the summer of 2026, then found in the index. *)
Module Indexed.

Definition transformed_educ_100w : TransformedCourse.t :=
  {| TransformedCourse.id := "educ-100w-2026su";
     TransformedCourse.course_code := "EDUC 100W";
     TransformedCourse.title := "Selected Questions and Issues in Education";
     TransformedCourse.document := format_document_text Fixture.educ_100w [];
     TransformedCourse.keywords := [];
     TransformedCourse.metadata := extract_metadata Fixture.educ_100w |}.

Definition candidate_educ_100w : Candidate :=
  {| id := TransformedCourse.id transformed_educ_100w;
     document := TransformedCourse.document transformed_educ_100w;
     metadata := _prepare_metadata transformed_educ_100w;
     relevance_score := 0.5;
     combined_score := 0.5 |}.

End Indexed.

(** ** index/models.py and index/indexer.py, continued *)

Module IndexingConfig.
Record t : Type := mk {
  collection_name : string;
  embedding_model : string;
  embedding_dimensions : Z;
  batch_size : Z;
  distance_metric : string;
  requests_per_minute : Z;
  delay_between_batches : Q
}.
End IndexingConfig.

Module IndexingStats.
Record t : Type := mk {
  total_documents : Z;
  documents_indexed : Z;
  documents_skipped : Z;
  total_embeddings_generated : Z;
  embedding_batches : Z;
  avg_embedding_time_ms : Q;
  total_tokens_used : Z;
  indexing_duration_seconds : Q
}.
End IndexingStats.

Module IndexOutput.
Record t : Type := mk {
  semester : string;
  collection_name : string;
  stats : IndexingStats.t;
  chroma_path : string;
  sample_ids : list string
}.
End IndexOutput.

(** [list(range(start, stop, step))]; [None] stands for the
    [ValueError] of a step that is zero. *)
Definition py_range (start stop step : Z) : option (list Z) :=
  if step =? 0 then None
  else
    let n :=
      if 0 <? step then (stop - start + step - 1) / step
      else (start - stop - step - 1) / (- step) in
    Some (map (fun k => start + Z.of_nat k * step) (seq 0 (Z.to_nat n))).

(** [l[i:j]], with the indices of Python: a negative one counts from
    the end, and both are cut to the list. *)
Definition py_slice {A} (l : list A) (i j : Z) : list A :=
  let norm k := if k <? 0 then Z.max 0 (len l + k) else Z.min k (len l) in
  firstn (Z.to_nat (norm j - norm i)) (skipn (Z.to_nat (norm i)) l).

(** What [index_all] can raise: the [ValueError] of [range], or an
    exception of a service or of the indexer itself. *)
Inductive index_exn : Type :=
  | ValueError
  | Raised (e : exn).

Section Indexer.

(** The embedding service and the Chroma client are outside the
    program.  A collection is a value that [upsert] turns into the
    next one; [get_or_create_collection] is given the name and the
    distance metric. *)
Variable Collection : Type.
Variable Chroma : Type.
Variable openai_embeddings_create :
  string -> list string -> result (list (list Q) * Z).
Variable delete_collection : Chroma -> string -> Chroma * result unit.
Variable get_or_create_collection :
  Chroma -> string -> string -> result (Chroma * Collection).
Variable upsert :
  Collection -> list string -> list (list Q) -> list string ->
  list (gmap string MetaValue) -> result Collection.

Record CourseIndexer : Type := {
  config : IndexingConfig.t;
  chroma_path : string;
  indexer_stats : IndexingStats.t;
  chroma_client : Chroma;
  collection : option Collection
}.

Definition set_indexer_stats (self : CourseIndexer) (s : IndexingStats.t)
  : CourseIndexer :=
  {| config := config self; chroma_path := chroma_path self;
     indexer_stats := s; chroma_client := chroma_client self;
     collection := collection self |}.

Definition set_collection (self : CourseIndexer) (client : Chroma)
    (c : option Collection) : CourseIndexer :=
  {| config := config self; chroma_path := chroma_path self;
     indexer_stats := indexer_stats self; chroma_client := client;
     collection := c |}.

Definition _get_or_create_collection (self : CourseIndexer) (recreate : bool)
  : result CourseIndexer :=
  let name := IndexingConfig.collection_name (config self) in
  let client :=
    if recreate then fst (delete_collection (chroma_client self) name)
    else chroma_client self in
  let* opened :=
    get_or_create_collection client name
      (IndexingConfig.distance_metric (config self)) in
  Ok (set_collection self (fst opened) (Some (snd opened))).

Definition add_tokens (n : Z) (s : IndexingStats.t) : IndexingStats.t :=
  let 'IndexingStats.mk a b c d e f g h := s in
  IndexingStats.mk a b c d e f (g + n) h.

Definition generate_embeddings (self : CourseIndexer) (texts : list string)
  : result (list (list Q) * CourseIndexer) :=
  let* response :=
    openai_embeddings_create (IndexingConfig.embedding_model (config self)) texts in
  let self := set_indexer_stats self (add_tokens (snd response) (indexer_stats self)) in
  Ok (fst response, self).

Definition index_batch (self : CourseIndexer) (courses : list TransformedCourse.t)
  : result (Z * CourseIndexer) :=
  match courses with
  | [] => Ok (0, self)
  | _ :: _ =>
      let ids := map TransformedCourse.id courses in
      let documents := map TransformedCourse.document courses in
      let metadatas := map _prepare_metadata courses in
      let* generated := generate_embeddings self documents in
      let '(embeddings, self) := generated in
      match collection self with
      | None => Raise AttributeError
      | Some c =>
          let* c := upsert c ids embeddings documents metadatas in
          Ok (len courses, set_collection self (chroma_client self) (Some c))
      end
  end.

Definition count_batch (indexed : Z) (s : IndexingStats.t) : IndexingStats.t :=
  let 'IndexingStats.mk a b c d e f g h := s in
  IndexingStats.mk a (b + indexed) c d (e + 1) f g h.

(** The loop [for i in range(0, total, batch_size)] of [index_all] *)
Fixpoint index_batches (self : CourseIndexer) (courses : list TransformedCourse.t)
    (batch_size : Z) (indices : list Z) : result CourseIndexer :=
  match indices with
  | [] => Ok self
  | i :: rest =>
      let batch := py_slice courses i (i + batch_size) in
      let* r := index_batch self batch in
      let '(indexed, self) := r in
      let self := set_indexer_stats self (count_batch indexed (indexer_stats self)) in
      index_batches self courses batch_size rest
  end.

Definition set_total_documents (total : Z) (s : IndexingStats.t)
  : IndexingStats.t :=
  let 'IndexingStats.mk _ b c d e f g h := s in
  IndexingStats.mk total b c d e f g h.

(** The closing of the statistics of [index_all]; [elapsed] is the
    time that the clock measured. *)
Definition close_stats (elapsed : Q) (s : IndexingStats.t) : IndexingStats.t :=
  let 'IndexingStats.mk a b c _ e f g _ := s in
  let f :=
    if 0 <? e then (elapsed * 1000 / inject_Z e)%Q else f in
  IndexingStats.mk a b c b e f g elapsed.

Definition index_all (self : CourseIndexer) (courses : list TransformedCourse.t)
    (semester : string) (recreate : bool) (elapsed : Q)
  : index_exn + IndexOutput.t * CourseIndexer :=
  match _get_or_create_collection self recreate with
  | Raise e => inl (Raised e)
  | Ok self =>
      let total := len courses in
      let self :=
        set_indexer_stats self (set_total_documents total (indexer_stats self)) in
      let batch_size := IndexingConfig.batch_size (config self) in
      match py_range 0 total batch_size with
      | None => inl ValueError
      | Some indices =>
          match index_batches self courses batch_size indices with
          | Raise e => inl (Raised e)
          | Ok self =>
              let self :=
                set_indexer_stats self (close_stats elapsed (indexer_stats self)) in
              inr
                ({| IndexOutput.semester := semester;
                    IndexOutput.collection_name :=
                      IndexingConfig.collection_name (config self);
                    IndexOutput.stats := indexer_stats self;
                    IndexOutput.chroma_path := chroma_path self;
                    IndexOutput.sample_ids :=
                      map TransformedCourse.id (py_slice courses 0 5) |},
                 self)
          end
      end
  end.

End Indexer.

Arguments config {Collection Chroma}.
Arguments indexer_stats {Collection Chroma}.
Arguments collection {Collection Chroma}.
Arguments chroma_client {Collection Chroma}.

(** An indexer for trying the pipeline out: the collection is the list
    of the identifiers that were upserted, in the order of the calls. *)
Module Recording.

Definition embeddings_create (model : string) (texts : list string)
  : result (list (list Q) * Z) :=
  Ok (map (fun _ => [0.1; 0.1; 0.1]%Q) texts, 7 * len texts).

Definition delete_collection (client : unit) (name : string)
  : unit * result unit :=
  (client, Raise (ServiceError "collection does not exist")).

Definition get_or_create_collection (client : unit) (name metric : string)
  : result (unit * list string) :=
  Ok (client, []).

Definition upsert (c : list string) (ids : list string)
    (embeddings : list (list Q)) (documents : list string)
    (metadatas : list (gmap string MetaValue)) : result (list string) :=
  Ok (c ++ ids).

Definition indexer (batch_size : Z) : CourseIndexer (list string) unit :=
  {| config :=
       IndexingConfig.mk "courses" "text-embedding-3-large" 3072 batch_size
         "cosine" 3000 0.5;
     chroma_path := "chroma";
     indexer_stats := IndexingStats.mk 0 0 0 0 0 0 0 0;
     chroma_client := tt;
     collection := None |}.

Definition index_all (batch_size : Z) (courses : list TransformedCourse.t)
  : index_exn + IndexOutput.t * CourseIndexer (list string) unit :=
  index_all (list string) unit embeddings_create delete_collection
    get_or_create_collection upsert (indexer batch_size) courses "1264" true 2.

End Recording.

(** ** data/coursys.py *)

Module CoursysEntry.
Record t : Type := mk {
  term : string;
  course_code : string;
  section : string;
  department : string;
  course_number : string;
  title : string;
  enrollment : string;
  instructor : string;
  campus : string
}.
End CoursysEntry.





(** ** Statements of the specification

    The definitions of this part follow the words of the specification;
    the theorems compare them with the functions above. *)

(** An active list filter is passed when one of the candidate's own values
    is among the requested ones. *)
Definition passes_list_filter (requested : option (list string))
    (values : list string) : Prop :=
  truthy requested = true ->
  exists v, In v values /\ In v (default [] requested).

(** An active exclusion is passed when the department is not excluded. *)
Definition passes_exclusion (excluded : option (list string)) (dept : string)
  : Prop :=
  truthy excluded = true -> ~ In dept (default [] excluded).

(** A candidate survives when it passes every active filter. *)
Definition survives (filters : QueryFilters.t) (c : Candidate) : Prop :=
  passes_list_filter (QueryFilters.campus filters)
    (split_values (get_str (metadata c) "campuses" ""))
  /\ passes_list_filter (QueryFilters.wqb filters)
       (split_values (get_str (metadata c) "wqb" ""))
  /\ passes_exclusion (QueryFilters.exclude_departments filters)
       (get_str (metadata c) "department" "").

(** A value that the comma-joined encoding keeps apart: not empty,
    without a comma, without white space at either end. *)
Fixpoint comma_free (s : string) : bool :=
  match s with
  | EmptyString => true
  | String c s' => negb (Ascii.eqb c ",") && comma_free s'
  end.

Definition clean_value (s : string) : bool :=
  nonempty s && comma_free s && String.eqb (strip s) s.

(** A value that [",".join] and [split(",")] give back as it was *)
Definition plain_value (s : string) : bool := nonempty s && comma_free s.

(** [desc key a b]: [a] may stand before [b] in descending order of
    [key]; [same_key key k a]: the key of [a] is [k]. *)
Definition desc {A} (key : A -> Q) (a b : A) : Prop := (key b <= key a)%Q.

Definition same_key {A} (key : A -> Q) (k : Q) (a : A) : bool :=
  Qeq_bool (key a) k.

(** The second segment of a split of the document on its first blank
    line only: everything after the first blank line, that is
    [document.split(blank_line, 1)[1]]; [None] when there is no blank line. *)
Fixpoint drop_str (n : nat) (s : string) : string :=
  match n, s with
  | S n', String _ s' => drop_str n' s'
  | _, _ => s
  end.

Fixpoint after_first (sep s : string) : option string :=
  if String.prefix sep s then Some (drop_str (String.length sep) s)
  else match s with
       | EmptyString => None
       | String _ s' => after_first sep s'
       end.

Definition after_first_blank_line (document : string) : option string :=
  after_first blank_line document.

(** The text before the first occurrence of [sep], all of it when there
    is none. *)
Fixpoint before_first (sep s : string) : string :=
  if String.prefix sep s then EmptyString
  else match s with
       | EmptyString => EmptyString
       | String c s' => String c (before_first sep s')
       end.

Definition before_first_blank_line (text : string) : string :=
  before_first blank_line text.

(** Strings without a line break, and strings in which every line break
    is followed by a character that is not one: no blank line inside, no
    line break at the end. *)
Definition is_newline (c : ascii) : bool := Ascii.eqb c nl.

Fixpoint newline_free (s : string) : bool :=
  match s with
  | EmptyString => true
  | String c s' => negb (is_newline c) && newline_free s'
  end.

Fixpoint segment (s : string) : bool :=
  match s with
  | EmptyString => true
  | String c s' =>
      (if is_newline c
       then match s' with
            | EmptyString => false
            | String c' _ => negb (is_newline c')
            end
       else true)
      && segment s'
  end.

(** A non-empty string that does not start with a line break; a line:
    a non-empty string without a line break. *)
Definition starts_line (s : string) : bool :=
  match s with
  | EmptyString => false
  | String c _ => negb (is_newline c)
  end.

Definition line (s : string) : bool := nonempty s && newline_free s.

(** The fields of a course that enter the header of its document, and its
    description, are single lines. *)
Definition single_line_fields (course : ProcessedCourse.t) : Prop :=
  newline_free (ProcessedCourse.course_code course) = true
  /\ newline_free (ProcessedCourse.title course) = true
  /\ newline_free (ProcessedCourse.department course) = true
  /\ forallb newline_free (ProcessedCourse.campuses course) = true
  /\ forallb newline_free (ProcessedCourse.delivery_methods course) = true
  /\ newline_free (ProcessedCourse.prerequisites_raw course) = true
  /\ newline_free (ProcessedCourse.description course) = true.

(** * Properties *)

(** ** The elective score (preprocessor) *)

Lemma len_nonneg {A} (l : list A) : 0 <= len l.
Proof. unfold len. lia. Qed.

(** The score is bounded by the number of WQB codes, not by a constant. *)
Lemma calculate_elective_score_range (course : ProcessedCourse.t) :
  5 * len (ProcessedCourse.wqb course) <= calculate_elective_score course
  /\ calculate_elective_score course <= 5 * len (ProcessedCourse.wqb course) + 16.
Proof.
  unfold calculate_elective_score.
  pose proof (len_nonneg (ProcessedCourse.wqb course)).
  destruct (negb (ProcessedCourse.has_prerequisites course)),
    (ProcessedCourse.level course =? 100), (ProcessedCourse.level course =? 200),
    (200 <=? ProcessedCourse.total_capacity course),
    (100 <=? ProcessedCourse.total_capacity course),
    (50 <=? ProcessedCourse.total_capacity course),
    (ProcessedCourse.instructors course),
    (1 <? len (ProcessedCourse.delivery_methods course)),
    (1 <? len (ProcessedCourse.campuses course)); lia.
Qed.

(** C1: the elective score is not confined to [0,25]: the course
    EDUC 100W of the fixture passes every exclusion rule, is therefore an
    elective candidate, and receives the score 30, above
    [MAX_ELECTIVE_SCORE]; its normalised score exceeds 1. *)
Theorem calculate_elective_score_exceeds_max :
  check_exclusion Fixture.educ_100w = None
  /\ ProcessedCourse.wqb Fixture.educ_100w = [WQB_W; B_SOC; B_HUM]
  /\ calculate_elective_score Fixture.educ_100w = 30
  /\ MAX_ELECTIVE_SCORE < calculate_elective_score Fixture.educ_100w
  /\ map ProcessedCourse.elective_score
       (fst (apply_exclusion_filters [Fixture.educ_100w])) = [30]
  /\ (1 < inject_Z (calculate_elective_score Fixture.educ_100w)
          / inject_Z MAX_ELECTIVE_SCORE)%Q.
Proof. repeat split; vm_compute; reflexivity. Qed.


(** ** The flat metadata (indexer) *)

Lemma prepare_metadata_dom (course : TransformedCourse.t) :
  dom (_prepare_metadata course) = list_to_set stored_keys.
Proof. unfold _prepare_metadata. rewrite dom_list_to_map_L. reflexivity. Qed.

Lemma prepare_metadata_missing (course : TransformedCourse.t) (key : string) :
  ~ In key stored_keys -> _prepare_metadata course !! key = None.
Proof.
  intros Hkey. apply not_elem_of_dom. rewrite prepare_metadata_dom.
  rewrite elem_of_list_to_set, list_elem_of_In. exact Hkey.
Qed.

Lemma not_stored_prerequisites_raw : ~ In "prerequisites_raw" stored_keys.
Proof. unfold stored_keys. simpl. intuition discriminate. Qed.

Lemma not_stored_instructors : ~ In "instructors" stored_keys.
Proof. unfold stored_keys. simpl. intuition discriminate. Qed.

(** C2: the record written by [_prepare_metadata] has fourteen keys;
    [prerequisites_raw] and [instructors] are not among them, whatever the
    course holds in these fields, so the engine reads back the empty
    default for both. *)
Theorem prepare_metadata_omits_prerequisites_and_instructors
    (course : TransformedCourse.t) :
  dom (_prepare_metadata course) = list_to_set stored_keys
  /\ length stored_keys = 14%nat
  /\ _prepare_metadata course !! "prerequisites_raw" = None
  /\ _prepare_metadata course !! "instructors" = None
  /\ get_str (_prepare_metadata course) "prerequisites_raw" "" = ""
  /\ get_list (_prepare_metadata course) "instructors" = [].
Proof.
  pose proof (prepare_metadata_missing course _ not_stored_prerequisites_raw) as Hp.
  pose proof (prepare_metadata_missing course _ not_stored_instructors) as Hi.
  split; [apply prepare_metadata_dom |]. split; [reflexivity |].
  split; [exact Hp |]. split; [exact Hi |]. split.
  - unfold get_str. rewrite Hp. reflexivity.
  - unfold get_list, get_str. rewrite Hi. reflexivity.
Qed.

(** Whatever the model answers, a result built from the metadata of an
    indexed course has no prerequisites text and no instructor. *)
Lemma build_course_of_indexed_course self query course c r :
  metadata c = _prepare_metadata course ->
  build_course self query c = Ok r ->
  CourseResult.prerequisites r = "" /\ CourseResult.instructor r = "".
Proof.
  intros Hmeta H. unfold build_course in H. rewrite Hmeta in H.
  destruct (generate_match_reason self query _ _ _) as [reason |]; [| discriminate].
  cbn [rbind] in H. unfold CourseResult_validate in H.
  destruct (_ && _); [| discriminate].
  injection H as <-. cbn [CourseResult.prerequisites CourseResult.instructor].
  unfold get_list, get_str.
  rewrite (prepare_metadata_missing course _ not_stored_prerequisites_raw).
  rewrite (prepare_metadata_missing course _ not_stored_instructors).
  split; reflexivity.
Qed.

(** ** Interpretation of the query *)

(** The recovery path that exists: text that [json.loads] rejects gives
    the raw query as the only topic. *)
Lemma interpret_query_fallback json_loads self query text :
  generate_content self (INTERPRET_PROMPT query) interpret_config = Ok text ->
  json_loads (text_or text "{}") = None ->
  interpret_query json_loads self query
  = Ok (QueryInterpretation.mk [query] ("Looking for courses related to: " +:+ query)).
Proof.
  intros Hgen Hjson. unfold interpret_query.
  rewrite Hgen. simpl. rewrite Hjson. reflexivity.
Qed.

(** A failure of the model call is not caught. *)
Lemma interpret_query_model_failure json_loads self query e :
  generate_content self (INTERPRET_PROMPT query) interpret_config = Raise e ->
  interpret_query json_loads self query = Raise e.
Proof.
  intros Hgen. unfold interpret_query.
  rewrite Hgen. reflexivity.
Qed.

(** A decoded object whose [topics] is not a list of strings fails the
    validation of [QueryInterpretation], which is not caught either. *)
Lemma interpret_query_validation_error json_loads self query text members s :
  generate_content self (INTERPRET_PROMPT query) interpret_config = Ok text ->
  json_loads (text_or text "{}") = Some (JObj members) ->
  json_get members "topics" (JArr []) = JStr s ->
  interpret_query json_loads self query = Raise ValidationError.
Proof.
  intros Hgen Hjson Htopics. unfold interpret_query.
  rewrite Hgen. simpl. rewrite Hjson, Htopics. reflexivity.
Qed.

(** C3: [interpret_query] raises when the model returns well-formed JSON
    that is not an object (a list, a string, a number, [null]): the text
    decodes, so [json.JSONDecodeError] is not raised, and [data.get] fails
    with [AttributeError], which no handler catches. *)
Theorem interpret_query_raises_on_non_object json_loads self query text data :
  generate_content self (INTERPRET_PROMPT query) interpret_config = Ok text ->
  json_loads (text_or text "{}") = Some data ->
  (forall members, data <> JObj members) ->
  interpret_query json_loads self query = Raise AttributeError.
Proof.
  intros Hgen Hjson Hobj. unfold interpret_query.
  rewrite Hgen. simpl. rewrite Hjson.
  destruct data; try reflexivity.
  exfalso. eapply Hobj. reflexivity.
Qed.

Lemma interpret_query_raises_on_non_object_witness :
  interpret_query Fixture.mock_json_loads
    (Fixture.mock_engine (Some "[]") Fixture.SAMPLE_COURSES) "ethics"
  = Raise AttributeError.
Proof.
  apply (interpret_query_raises_on_non_object Fixture.mock_json_loads
           (Fixture.mock_engine (Some "[]") Fixture.SAMPLE_COURSES)
           "ethics" (Some "[]") (JArr [])).
  - reflexivity.
  - reflexivity.
  - intros members H. discriminate H.
Defined.

(** ** The explanation of a match *)





(** ** The post-filters *)

Lemma str_mem_In (x : string) (l : list string) : str_mem x l = true <-> In x l.
Proof.
  unfold str_mem. rewrite existsb_exists. split.
  - intros [y [Hy Heq]]. apply String.eqb_eq in Heq. now subst.
  - intros Hin. exists x. split; [exact Hin | apply String.eqb_refl].
Qed.

Lemma list_filter_keeps (requested : option (list string)) (values : list string) :
  match requested with
  | Some (r0 :: rs) => negb (existsb (fun r => str_mem r values) (r0 :: rs))
  | _ => false
  end = false
  <-> passes_list_filter requested values.
Proof.
  unfold passes_list_filter.
  destruct requested as [[| r0 rs] |]; simpl truthy; simpl default.
  - split; [discriminate | reflexivity].
  - rewrite negb_false_iff, existsb_exists. split.
    + intros [r [Hr Hmem]] _. exists r. split; [now apply str_mem_In | exact Hr].
    + intros H. destruct (H eq_refl) as [v [Hv Hr]].
      exists v. split; [exact Hr | now apply str_mem_In].
  - split; [discriminate | reflexivity].
Qed.

Lemma exclusion_keeps (excluded : option (list string)) (dept : string) :
  match excluded with
  | Some (d0 :: ds) => str_mem dept (d0 :: ds)
  | _ => false
  end = false
  <-> passes_exclusion excluded dept.
Proof.
  unfold passes_exclusion.
  destruct excluded as [[| d0 ds] |]; simpl truthy; simpl default.
  - split; [discriminate | reflexivity].
  - rewrite <- not_true_iff_false, str_mem_In. split.
    + intros H _. exact H.
    + intros H. now apply H.
  - split; [discriminate | reflexivity].
Qed.

Lemma post_filter_cons (c : Candidate) (rest : list Candidate)
    (filters : QueryFilters.t) :
  (survives filters c
   /\ _post_filter_courses (c :: rest) filters
      = c :: _post_filter_courses rest filters)
  \/ (~ survives filters c
      /\ _post_filter_courses (c :: rest) filters
         = _post_filter_courses rest filters).
Proof.
  unfold survives.
  pose proof (list_filter_keeps (QueryFilters.campus filters)
                (split_values (get_str (metadata c) "campuses" ""))) as Hcampus.
  pose proof (list_filter_keeps (QueryFilters.wqb filters)
                (split_values (get_str (metadata c) "wqb" ""))) as Hwqb.
  pose proof (exclusion_keeps (QueryFilters.exclude_departments filters)
                (get_str (metadata c) "department" "")) as Hdept.
  cbn [_post_filter_courses].
  destruct (match QueryFilters.campus filters with
            | Some (c0 :: cs) => _ | _ => false end) eqn:E1.
  { right. split; [| reflexivity]. intros [H _].
    apply Hcampus in H. congruence. }
  destruct (match QueryFilters.wqb filters with
            | Some (w0 :: ws) => _ | _ => false end) eqn:E2.
  { right. split; [| reflexivity]. intros [_ [H _]].
    apply Hwqb in H. congruence. }
  destruct (match QueryFilters.exclude_departments filters with
            | Some (d0 :: ds) => _ | _ => false end) eqn:E3.
  { right. split; [| reflexivity]. intros [_ [_ H]].
    apply Hdept in H. congruence. }
  left. split; [| reflexivity].
  split; [now apply Hcampus |]. split; [now apply Hwqb | now apply Hdept].
Qed.

(** Membership in the result, and the order of the result. *)
Lemma post_filter_courses_In (courses : list Candidate) (filters : QueryFilters.t)
    (c : Candidate) :
  In c (_post_filter_courses courses filters)
  <-> In c courses /\ survives filters c.
Proof.
  induction courses as [| c0 rest IH].
  - simpl. tauto.
  - destruct (post_filter_cons c0 rest filters) as [[Hs Heq] | [Hs Heq]];
      rewrite Heq; simpl; rewrite IH; split.
    + intros [-> | [Hin Hc]]; [split; [now left | exact Hs] | split; [now right | exact Hc]].
    + intros [[-> | Hin] Hc]; [now left | right; now split].
    + intros [Hin Hc]. split; [now right | exact Hc].
    + intros [[-> | Hin] Hc]; [contradiction | now split].
Qed.


(** *** The values of a comma-joined field *)

Lemma prefix_comma (c : ascii) (t : string) :
  String.prefix "," (String c t) = Ascii.eqb c ",".
Proof.
  cbn [String.prefix]. destruct (ascii_dec "," c) as [<- | Hc].
  - now destruct t.
  - symmetry. apply Ascii.eqb_neq. congruence.
Qed.

Lemma split_comma_free (x r : string) :
  comma_free x = true ->
  split_go "," 0 (x +:+ "," +:+ r) = x :: split_go "," 0 r.
Proof.
  induction x as [| c x IH]; intros Hx.
  - change (EmptyString +:+ "," +:+ r) with (String "," r).
    cbn [split_go]. now rewrite prefix_comma.
  - cbn [comma_free] in Hx. apply andb_true_iff in Hx as [Hc Hx].
    apply negb_true_iff in Hc.
    change (String c x +:+ "," +:+ r) with (String c (x +:+ "," +:+ r)).
    cbn [split_go]. rewrite prefix_comma, Hc. now rewrite IH.
Qed.

Lemma split_comma_free_last (x : string) :
  comma_free x = true -> split_go "," 0 x = [x].
Proof.
  induction x as [| c x IH]; intros Hx; [reflexivity |].
  cbn [comma_free] in Hx. apply andb_true_iff in Hx as [Hc Hx].
  apply negb_true_iff in Hc.
  cbn [split_go]. rewrite prefix_comma, Hc. now rewrite IH.
Qed.

Lemma split_join_comma (x : string) (l : list string) :
  forallb comma_free (x :: l) = true -> split "," (join "," (x :: l)) = x :: l.
Proof.
  unfold split. revert x. induction l as [| y l IH]; intros x Hall.
  - cbn [forallb] in Hall. apply andb_true_iff in Hall as [Hx _].
    now apply split_comma_free_last.
  - change (forallb comma_free (x :: y :: l))
      with (comma_free x && forallb comma_free (y :: l)) in Hall.
    apply andb_true_iff in Hall as [Hx Hrest].
    change (join "," (x :: y :: l)) with (x +:+ "," +:+ join "," (y :: l)).
    rewrite split_comma_free by exact Hx. now rewrite IH.
Qed.

(** Splitting undoes the joining of the indexer on clean values. *)
Lemma split_values_join (l : list string) :
  forallb clean_value l = true -> split_values (join "," l) = l.
Proof.
  intros Hall. destruct l as [| x l]; [reflexivity |].
  unfold split_values. rewrite split_join_comma.
  - induction (x :: l) as [| y l' IH]; [reflexivity |].
    cbn [forallb] in Hall. apply andb_true_iff in Hall as [Hy Hrest].
    unfold clean_value in Hy.
    apply andb_true_iff in Hy as [Hy Hstrip]. apply andb_true_iff in Hy as [Hne _].
    apply String.eqb_eq in Hstrip.
    cbn [List.filter]. rewrite Hstrip, Hne. cbn [map]. rewrite Hstrip.
    f_equal. now apply IH.
  - apply forallb_forall. intros y Hy.
    rewrite forallb_forall in Hall. specialize (Hall y Hy).
    unfold clean_value in Hall.
    apply andb_true_iff in Hall as [Hall _]. now apply andb_true_iff in Hall as [_ Hc].
Qed.

(** The values that the post-filters read for an indexed course are the
    campuses and the WQB codes of the course. *)
Lemma split_values_of_indexed_course (course : TransformedCourse.t) :
  forallb clean_value (CourseMetadata.campuses (TransformedCourse.metadata course))
  = true ->
  forallb clean_value (CourseMetadata.wqb (TransformedCourse.metadata course))
  = true ->
  split_values (get_str (_prepare_metadata course) "campuses" "")
  = CourseMetadata.campuses (TransformedCourse.metadata course)
  /\ split_values (get_str (_prepare_metadata course) "wqb" "")
     = CourseMetadata.wqb (TransformedCourse.metadata course).
Proof.
  intros Hc Hw.
  change (get_str (_prepare_metadata course) "campuses" "")
    with (join "," (CourseMetadata.campuses (TransformedCourse.metadata course))).
  change (get_str (_prepare_metadata course) "wqb" "")
    with (join "," (CourseMetadata.wqb (TransformedCourse.metadata course))).
  split; now apply split_values_join.
Qed.


(** The scenario of the specification on the four-course corpus. *)
Example scenario_wqb_filter :
  map id (rank_courses Fixture.SAMPLE_COURSES
            (QueryFilters.mk None (Some ["W"; "B-Hum"]) None None None) 10)
  = ["phil-100w-2026su"].
Proof. vm_compute. reflexivity. Qed.

Example scenario_exclude_department :
  map id (rank_courses Fixture.SAMPLE_COURSES
            (QueryFilters.mk None None None None (Some ["CMPT"])) 10)
  = ["psyc-100-2026su"; "phil-100w-2026su"; "macm-101-2026su"].
Proof. vm_compute. reflexivity. Qed.

Example scenario_campus_and_exclusion :
  map id (rank_courses Fixture.SAMPLE_COURSES
            (QueryFilters.mk (Some ["Vancouver"]) None None None (Some ["CMPT"])) 10)
  = ["phil-100w-2026su"].
Proof. vm_compute. reflexivity. Qed.

(** ** Scores of a candidate *)

Lemma Qltb_true (a b : Q) : Qltb a b = true <-> (a < b)%Q.
Proof.
  unfold Qltb. rewrite negb_true_iff, <- not_true_iff_false, Qle_bool_iff.
  split; [apply Qnot_le_lt | apply Qlt_not_le].
Qed.

Lemma Qltb_false (a b : Q) : Qltb a b = false <-> (b <= a)%Q.
Proof. unfold Qltb. rewrite negb_false_iff. apply Qle_bool_iff. Qed.



(** The clamp, on the values themselves. *)
Lemma clamp_bounds (x : Q) :
  (0 <= py_max 0 (py_min 1 x))%Q /\ (py_max 0 (py_min 1 x) <= 1)%Q.
Proof.
  unfold py_max, py_min.
  destruct (Qltb x 1) eqn:E1.
  - destruct (Qltb 0 x) eqn:E2.
    + apply Qltb_true in E1, E2. split; now apply Qlt_le_weak.
    + split; [apply Qle_refl | discriminate].
  - destruct (Qltb 0 1) eqn:E2.
    + split; [discriminate | apply Qle_refl].
    + split; [apply Qle_refl | discriminate].
Qed.


(** ** Ranking: sort and truncation *)

Section SortDesc.

Context {A : Type} (key : A -> Q).

Lemma insert_desc_perm (x : A) (l : list A) :
  Permutation (insert_desc key x l) (x :: l).
Proof.
  induction l as [| y l IH]; simpl.
  - apply Permutation_refl.
  - destruct (Qle_bool (key y) (key x)).
    + apply Permutation_refl.
    + eapply perm_trans; [apply perm_skip, IH | apply perm_swap].
Qed.

Lemma sort_desc_perm (l : list A) : Permutation (sort_desc key l) l.
Proof.
  induction l as [| x l IH]; simpl.
  - apply perm_nil.
  - eapply perm_trans; [apply insert_desc_perm | now apply perm_skip].
Qed.





(** A descending list in which the elements of each key stand in a given
    order is unique: any stable sort computes [sort_desc]. *)
Lemma stable_desc_unique (l1 l2 : list A) :
  StronglySorted (desc key) l1 ->
  StronglySorted (desc key) l2 ->
  (forall k, List.filter (same_key key k) l1 = List.filter (same_key key k) l2) ->
  l1 = l2.
Proof.
  intros H1. revert l2.
  induction H1 as [| x l1 Hs1 IH Hx]; intros l2 H2 Hsame.
  - destruct l2 as [| y l2]; [reflexivity |].
    assert (Hky : same_key key (key y) y = true)
      by (unfold same_key; apply Qeq_bool_refl).
    specialize (Hsame (key y)). cbn [List.filter] in Hsame.
    rewrite Hky in Hsame. discriminate.
  - destruct H2 as [| y l2 Hs2 Hy].
    { assert (Hkx : same_key key (key x) x = true)
        by (unfold same_key; apply Qeq_bool_refl).
      specialize (Hsame (key x)). cbn [List.filter] in Hsame.
      rewrite Hkx in Hsame. discriminate. }
    assert (Hmem : forall a l l', In a l ->
              (forall k, List.filter (same_key key k) l
                         = List.filter (same_key key k) l') -> In a l').
    { intros a l l' Ha Hf.
      assert (Hin : In a (List.filter (same_key key (key a)) l)).
      { apply filter_In. split; [exact Ha |]. unfold same_key. apply Qeq_bool_refl. }
      rewrite Hf in Hin. now apply filter_In in Hin as [Hin _]. }
    assert (Hxy : (key x <= key y)%Q).
    { assert (Hin : In x (y :: l2)) by (apply (Hmem x (x :: l1)); [now left | exact Hsame]).
      destruct Hin as [<- | Hin]; [apply Qle_refl |].
      rewrite List.Forall_forall in Hy. now apply Hy. }
    assert (Hyx : (key y <= key x)%Q).
    { assert (Hin : In y (x :: l1)).
      { apply (Hmem y (y :: l2)); [now left |]. intros k. symmetry. apply Hsame. }
      destruct Hin as [<- | Hin]; [apply Qle_refl |].
      rewrite List.Forall_forall in Hx. now apply Hx. }
    assert (Hkx : same_key key (key x) x = true)
      by (unfold same_key; apply Qeq_bool_refl).
    assert (Hky : same_key key (key x) y = true)
      by (unfold same_key; apply Qeq_bool_iff; now apply Qle_antisym).
    pose proof (Hsame (key x)) as Hhead. cbn [List.filter] in Hhead.
    rewrite Hkx, Hky in Hhead.
    injection Hhead as -> _.
    f_equal. apply IH; [exact Hs2 |].
    intros k. specialize (Hsame k). cbn [List.filter] in Hsame.
    destruct (same_key key k y); [now injection Hsame | exact Hsame].
Qed.

End SortDesc.

Lemma slice_to_nonneg {A} (n : Z) (l : list A) :
  0 <= n -> slice_to n l = firstn (Z.to_nat n) l.
Proof. intros Hn. unfold slice_to. apply Z.leb_le in Hn. now rewrite Hn. Qed.

Lemma slice_to_prefix {A} (n : Z) (l : list A) :
  exists m, slice_to n l = firstn m l.
Proof. unfold slice_to. destruct (0 <=? n); eauto. Qed.

Lemma slice_to_incl {A} (n : Z) (l : list A) (x : A) :
  In x (slice_to n l) -> In x l.
Proof.
  destruct (slice_to_prefix n l) as [m ->].
  intros H. rewrite <- (firstn_skipn m l). apply in_or_app. now left.
Qed.



(** ** The orchestrator *)

Lemma rank_courses_from_entries results filters n_results c :
  In c (rank_courses results filters n_results) ->
  exists e, In e results /\ c = to_candidate e.
Proof.
  unfold rank_courses. intros Hin.
  apply slice_to_incl in Hin.
  eapply Permutation_in in Hin; [| apply sort_desc_perm].
  apply post_filter_courses_In in Hin as [Hin _].
  apply in_map_iff in Hin as [e [<- He]]. now exists e.
Qed.

(** Every candidate that [search_courses] returns has its relevance in
    [0,1]. *)
Lemma search_courses_relevance_bounds self query_embedding filters n_results
    candidates c :
  search_courses self query_embedding filters n_results = Ok candidates ->
  In c candidates ->
  (0 <= relevance_score c)%Q /\ (relevance_score c <= 1)%Q.
Proof.
  unfold search_courses. intros Hs Hin.
  destruct (collection_query self _ _ _) as [results |]; [| discriminate].
  cbn [rbind] in Hs. injection Hs as <-.
  apply rank_courses_from_entries in Hin as [e [_ ->]].
  apply clamp_bounds.
Qed.




Lemma threshold_filter_above min_relevance candidates top_k c :
  In c (slice_to top_k
          (List.filter (fun c => Qle_bool min_relevance (relevance_score c))
             candidates)) ->
  In c candidates /\ (min_relevance <= relevance_score c)%Q.
Proof.
  intros Hin. apply slice_to_incl in Hin.
  apply filter_In in Hin as [Hin Hle]. split; [exact Hin | now apply Qle_bool_iff].
Qed.




(** ** Rounding of the relevance *)

Lemma round_half_even_close (x : Q) :
  (x - inject_Z (round_half_even x) <= 1 # 2)%Q
  /\ (- (1 # 2) <= x - inject_Z (round_half_even x))%Q.
Proof.
  unfold round_half_even.
  pose proof (Qfloor_le x) as Hlo.
  pose proof (Qlt_floor x) as Hhi.
  rewrite inject_Z_plus in Hhi. change (inject_Z 1) with 1%Q in Hhi.
  destruct (Qltb (x - inject_Z (Qfloor x)) (1 # 2)) eqn:E1.
  { apply Qltb_true in E1. split; lra. }
  apply Qltb_false in E1.
  destruct (Qltb (1 # 2) (x - inject_Z (Qfloor x))) eqn:E2.
  { rewrite inject_Z_plus. change (inject_Z 1) with 1%Q. split; lra. }
  apply Qltb_false in E2.
  destruct (Z.even (Qfloor x)).
  - split; lra.
  - rewrite inject_Z_plus. change (inject_Z 1) with 1%Q. split; lra.
Qed.




(** ** Recovery of the description *)

Lemma prefix_blank_line (c : ascii) (t : string) :
  String.prefix blank_line (String c t)
  = is_newline c
    && match t with
       | EmptyString => false
       | String c' _ => is_newline c'
       end.
Proof.
  change blank_line with (String nl (String nl EmptyString)).
  unfold is_newline. cbn [String.prefix].
  destruct (ascii_dec nl c) as [<- | Hc].
  - rewrite Ascii.eqb_refl. cbn [andb].
    destruct t as [| c' t']; [reflexivity |]. cbn [String.prefix].
    destruct (ascii_dec nl c') as [<- | Hc'].
    + rewrite Ascii.eqb_refl. now destruct t'.
    + symmetry. apply Ascii.eqb_neq. congruence.
  - assert (E : Ascii.eqb c nl = false) by (apply Ascii.eqb_neq; congruence).
    now rewrite E.
Qed.

Lemma split_go_cons (c : ascii) (t : string) :
  String.prefix blank_line (String c t) = false ->
  split_go blank_line 0 (String c t)
  = match split_go blank_line 0 t with
    | p :: ps => String c p :: ps
    | [] => [String c EmptyString]
    end.
Proof. intros H. cbn [split_go]. now rewrite H. Qed.

(** A segment followed by a blank line is the first part of the split. *)
Lemma split_go_segment (h r : string) :
  segment h = true ->
  split_go blank_line 0 (h +:+ blank_line +:+ r) = h :: split_go blank_line 0 r.
Proof.
  induction h as [| c h IH]; intros Hseg.
  - change (EmptyString +:+ blank_line +:+ r) with (String nl (String nl r)).
    cbn [split_go]. rewrite prefix_blank_line.
    unfold is_newline. rewrite Ascii.eqb_refl. reflexivity.
  - cbn [segment] in Hseg. apply andb_true_iff in Hseg as [Hc Hseg].
    change (String c h +:+ blank_line +:+ r)
      with (String c (h +:+ blank_line +:+ r)).
    rewrite split_go_cons.
    + now rewrite IH.
    + rewrite prefix_blank_line.
      destruct (is_newline c); [| reflexivity]. cbn [andb].
      destruct h as [| c' h']; [discriminate |].
      cbn [String.append]. now apply negb_true_iff.
Qed.

Lemma split_go_newline_free (s : string) :
  newline_free s = true -> split_go blank_line 0 s = [s].
Proof.
  induction s as [| c s IH]; intros Hs; [reflexivity |].
  cbn [newline_free] in Hs. apply andb_true_iff in Hs as [Hc Hs].
  rewrite split_go_cons.
  - now rewrite IH.
  - rewrite prefix_blank_line. apply negb_true_iff in Hc. now rewrite Hc.
Qed.

Lemma str_in_blank_line (h r : string) :
  str_in blank_line (h +:+ blank_line +:+ r) = true.
Proof.
  induction h as [| c h IH].
  - now destruct r.
  - change (String c h +:+ blank_line +:+ r)
      with (String c (h +:+ blank_line +:+ r)).
    change (str_in blank_line (String c (h +:+ blank_line +:+ r)))
      with (String.prefix blank_line (String c (h +:+ blank_line +:+ r))
            || str_in blank_line (h +:+ blank_line +:+ r)).
    rewrite IH. apply orb_true_r.
Qed.

Lemma newline_free_segment (s : string) : newline_free s = true -> segment s = true.
Proof.
  induction s as [| c s IH]; intros Hs; [reflexivity |].
  cbn [newline_free] in Hs. apply andb_true_iff in Hs as [Hc Hs].
  cbn [segment]. apply negb_true_iff in Hc. rewrite Hc. now apply IH.
Qed.

Lemma newline_free_app (a b : string) :
  newline_free (a +:+ b) = newline_free a && newline_free b.
Proof.
  induction a as [| c a IH]; [reflexivity |].
  simpl. rewrite IH. apply andb_assoc.
Qed.

(** A single line, a line break, and a segment that starts with a
    character of a line: a segment again. *)
Lemma segment_line_break (a b : string) :
  newline_free a = true ->
  segment (a +:+ newline +:+ b) = starts_line b && segment b.
Proof.
  induction a as [| c a IH]; intros Ha.
  - reflexivity.
  - cbn [newline_free] in Ha. apply andb_true_iff in Ha as [Hc Ha].
    change (String c a +:+ newline +:+ b) with (String c (a +:+ newline +:+ b)).
    cbn [segment]. apply negb_true_iff in Hc. rewrite Hc.
    cbn [andb]. now apply IH.
Qed.

Lemma line_starts_line (s : string) : line s = true -> starts_line s = true.
Proof.
  unfold line. destruct s as [| c s]; [discriminate |].
  cbn [nonempty newline_free starts_line andb].
  intros H. now apply andb_true_iff in H as [H _].
Qed.

Lemma starts_line_app (a b : string) :
  starts_line a = true -> starts_line (a +:+ b) = true.
Proof. destruct a; [discriminate | intros H; exact H]. Qed.

Lemma join_cons2 (sep x y : string) (l : list string) :
  join sep (x :: y :: l) = x +:+ sep +:+ join sep (y :: l).
Proof. reflexivity. Qed.

(** Lines joined by line breaks form a segment. *)
Lemma join_lines_segment (lines : list string) :
  lines <> [] ->
  forallb line lines = true ->
  segment (join newline lines) = true /\ starts_line (join newline lines) = true.
Proof.
  induction lines as [| l [| l2 ls] IH]; intros Hne Hall; [contradiction | |].
  - cbn [forallb] in Hall. apply andb_true_iff in Hall as [Hl _].
    cbn [join String.concat]. split; [| now apply line_starts_line].
    apply newline_free_segment. unfold line in Hl.
    now apply andb_true_iff in Hl as [_ Hl].
  - change (forallb line (l :: l2 :: ls))
      with (line l && forallb line (l2 :: ls)) in Hall.
    apply andb_true_iff in Hall as [Hl Hrest].
    destruct (IH ltac:(discriminate) Hrest) as [Hseg Hstart].
    rewrite join_cons2. split.
    + rewrite segment_line_break.
      * now rewrite Hseg, Hstart.
      * unfold line in Hl. now apply andb_true_iff in Hl as [_ Hl].
    + apply starts_line_app. now apply line_starts_line.
Qed.

Lemma string_app_assoc (a b c : string) : (a +:+ b) +:+ c = a +:+ b +:+ c.
Proof.
  induction a as [| x a IH]; [reflexivity |].
  change (String x ((a +:+ b) +:+ c) = String x (a +:+ b +:+ c)).
  now f_equal.
Qed.

Lemma join_app (sep : string) (l1 l2 : list string) :
  l1 <> [] -> l2 <> [] ->
  join sep (l1 ++ l2) = join sep l1 +:+ sep +:+ join sep l2.
Proof.
  intros H1 H2. induction l1 as [| x [| y l1] IH]; [contradiction | |].
  - destruct l2 as [| z l2]; [contradiction | reflexivity].
  - change ((x :: y :: l1) ++ l2) with (x :: y :: (l1 ++ l2)).
    rewrite !join_cons2.
    change (y :: l1 ++ l2) with ((y :: l1) ++ l2).
    rewrite IH by discriminate.
    now rewrite !string_app_assoc.
Qed.

(** The description of a document made of header lines, an empty line,
    a one-line description and, possibly, an empty line and a last line. *)
Lemma extract_description_lines (header : list string) (description : string)
    (rest : list string) :
  header <> [] ->
  forallb line header = true ->
  newline_free description = true ->
  (rest = [] \/ exists last, rest = [EmptyString; last]) ->
  extract_description (join newline (header ++ EmptyString :: description :: rest))
  = description.
Proof.
  intros Hne Hlines Hdesc Hrest.
  destruct (join_lines_segment header Hne Hlines) as [Hseg _].
  rewrite join_app by (assumption || discriminate).
  unfold extract_description, split.
  destruct Hrest as [-> | [last ->]].
  - change (join newline [EmptyString; description]) with (newline +:+ description).
    change (join newline header +:+ newline +:+ newline +:+ description)
      with (join newline header +:+ blank_line +:+ description).
    rewrite str_in_blank_line, split_go_segment by exact Hseg.
    now rewrite split_go_newline_free.
  - change (join newline [EmptyString; description; EmptyString; last])
      with (newline +:+ description +:+ blank_line +:+ last).
    change (join newline header +:+ newline +:+ newline +:+ description
            +:+ blank_line +:+ last)
      with (join newline header +:+ blank_line
            +:+ (description +:+ blank_line +:+ last)).
    rewrite str_in_blank_line, split_go_segment by exact Hseg.
    now rewrite split_go_segment by now apply newline_free_segment.
Qed.

Lemma newline_free_join (sep : string) (l : list string) :
  newline_free sep = true ->
  forallb newline_free l = true ->
  newline_free (join sep l) = true.
Proof.
  intros Hsep. induction l as [| x [| y l] IH]; intros Hl; [reflexivity | |].
  - cbn [forallb] in Hl. now apply andb_true_iff in Hl as [Hx _].
  - change (forallb newline_free (x :: y :: l))
      with (newline_free x && forallb newline_free (y :: l)) in Hl.
    apply andb_true_iff in Hl as [Hx Hrest].
    rewrite join_cons2, !newline_free_app, Hx, Hsep. now apply IH.
Qed.

Lemma newline_free_take_str (n : nat) (s : string) :
  newline_free s = true -> newline_free (take_str n s) = true.
Proof.
  unfold take_str. revert n. induction s as [| c s IH]; intros n Hs.
  - now destruct n.
  - destruct n as [| n]; [reflexivity |].
    cbn [newline_free] in Hs. apply andb_true_iff in Hs as [Hc Hs].
    cbn [String.substring newline_free]. rewrite Hc. now apply IH.
Qed.

Lemma newline_free_str_of_int (n : Z) : newline_free (str_of_int n) = true.
Proof.
  assert (Hu : forall d, newline_free (NilEmpty.string_of_uint d) = true)
    by (induction d; simpl; auto).
  assert (Hz : forall d, newline_free (NilZero.string_of_uint d) = true)
    by (intros d; destruct d; try apply Hu; reflexivity).
  unfold str_of_int, NilZero.string_of_int.
  destruct (Z.to_int n); [apply Hz |].
  cbn [newline_free]. now rewrite Hz.
Qed.

Lemma newline_free_WQBCode_value (w : WQBCode) :
  newline_free (WQBCode_value w) = true.
Proof. now destruct w. Qed.

Lemma nonempty_app_l (a b : string) : nonempty a = true -> nonempty (a +:+ b) = true.
Proof. now destruct a. Qed.

Lemma nonempty_app_r (a b : string) : nonempty b = true -> nonempty (a +:+ b) = true.
Proof. destruct a; [intros H; exact H | reflexivity]. Qed.

Lemma line_intro (s : string) :
  nonempty s = true -> newline_free s = true -> line s = true.
Proof. unfold line. intros -> ->. reflexivity. Qed.

Lemma line_newline_free (s : string) : line s = true -> newline_free s = true.
Proof. unfold line. intros H. now apply andb_true_iff in H as [_ H]. Qed.

(** Splits a goal on [newline_free] along the concatenations, and closes
    the parts that are literals, hypotheses or printed integers. *)
Ltac newline_free_parts :=
  repeat rewrite newline_free_app;
  repeat (apply andb_true_intro; split);
  try reflexivity; try assumption; try apply newline_free_str_of_int.

Lemma line_heading (course_code title : string) :
  newline_free course_code = true -> newline_free title = true ->
  line (course_code +:+ " - " +:+ title) = true.
Proof.
  intros Hc Ht. apply line_intro.
  - apply nonempty_app_r. reflexivity.
  - newline_free_parts.
Qed.

Lemma line_meta_parts (department : string) (level units : Z) :
  newline_free department = true ->
  line (join " | "
          [ "Department: " +:+ department;
            "Level: " +:+ str_of_int level;
            "Units: " +:+ str_of_int units ]) = true.
Proof.
  intros Hd. apply line_intro; [reflexivity |].
  cbn [join String.concat]. newline_free_parts.
Qed.

Lemma line_labelled_list (label : string) (items : list string) :
  line label = true ->
  forallb newline_free items = true ->
  line (label +:+ join ", " items) = true.
Proof.
  intros Hl Hitems. apply line_intro.
  - apply nonempty_app_l. unfold line in Hl. now apply andb_true_iff in Hl as [Hl _].
  - rewrite newline_free_app, (line_newline_free _ Hl).
    now apply newline_free_join.
Qed.

Lemma newline_free_wqb_str (ws : list WQBCode) :
  newline_free (join ", " (map WQBCode_value ws)) = true.
Proof.
  apply newline_free_join; [reflexivity |].
  apply forallb_forall. intros x Hx.
  apply in_map_iff in Hx as [w [<- _]]. apply newline_free_WQBCode_value.
Qed.

Lemma line_wqb_prerequisites (wqb_str : string) (has_prerequisites : bool)
    (prerequisites_raw : string) :
  newline_free wqb_str = true ->
  newline_free prerequisites_raw = true ->
  line ("WQB: " +:+ wqb_str +:+ " | Prerequisites: "
        +:+ (if negb has_prerequisites then "None"
             else if nonempty prerequisites_raw then
               if (200 <? String.length prerequisites_raw)%nat
               then take_str 200 prerequisites_raw +:+ "..."
               else take_str 200 prerequisites_raw
             else "Required")) = true.
Proof.
  intros Hwqb Hraw. apply line_intro; [reflexivity |].
  pose proof (newline_free_take_str 200 _ Hraw) as Hcut.
  newline_free_parts.
  destruct (negb has_prerequisites); [reflexivity |].
  destruct (nonempty prerequisites_raw); [| reflexivity].
  destruct (200 <? String.length prerequisites_raw)%nat; newline_free_parts.
Qed.

Lemma forallb_cons_true {A} (f : A -> bool) (x : A) (l : list A) :
  f x = true -> forallb f l = true -> forallb f (x :: l) = true.
Proof. intros Hx Hl. cbn [forallb]. now rewrite Hx, Hl. Qed.

Lemma line_pair (a sep b : string) :
  line a = true -> newline_free sep = true -> line b = true ->
  line (a +:+ sep +:+ b) = true.
Proof.
  intros Ha Hsep Hb. apply line_intro.
  - apply nonempty_app_l. unfold line in Ha. now apply andb_true_iff in Ha as [Ha _].
  - rewrite !newline_free_app, Hsep.
    now rewrite (line_newline_free _ Ha), (line_newline_free _ Hb).
Qed.

(** For a document in the documented format, whose header fields and
    description are single lines, the recovered description is the
    description of the course. *)
Lemma extract_description_format_document_text course keywords :
  single_line_fields course ->
  extract_description (format_document_text course keywords)
  = ProcessedCourse.description course.
Proof.
  intros (Hcode & Htitle & Hdept & Hcampuses & Hdelivery & Hprereq & Hdesc).
  pose proof (line_heading _ _ Hcode Htitle) as H1.
  pose proof (line_meta_parts _ (ProcessedCourse.level course)
                (ProcessedCourse.units course) Hdept) as H2.
  pose proof (line_labelled_list "Campus: " _ eq_refl Hcampuses) as Hc.
  pose proof (line_labelled_list "Delivery: " _ eq_refl Hdelivery) as Hd.
  unfold format_document_text.
  destruct (ProcessedCourse.campuses course) as [| c cs] eqn:Ec;
  destruct (ProcessedCourse.delivery_methods course) as [| d ds] eqn:Ed;
  destruct (ProcessedCourse.wqb course) as [| w ws] eqn:Ew;
  destruct keywords as [| k ks]; cbn [app];
  match goal with
  | |- extract_description
         (join newline (?a :: ?b :: ?c :: EmptyString :: ?e :: ?r)) = _ =>
      apply (extract_description_lines [a; b; c] e r)
  | |- extract_description
         (join newline (?a :: ?b :: ?c :: ?c' :: EmptyString :: ?e :: ?r)) = _ =>
      apply (extract_description_lines [a; b; c; c'] e r)
  end;
  try discriminate; try exact Hdesc;
  try (left; reflexivity); try (right; eexists; reflexivity).
  all: repeat (apply forallb_cons_true;
               [ first [ exact H1 | exact H2 | exact Hc | exact Hd
                       | apply (line_pair _ " | " _ Hc eq_refl Hd)
                       | apply line_wqb_prerequisites;
                         [ first [reflexivity | apply newline_free_wqb_str]
                         | exact Hprereq ] ] |]);
    reflexivity.
Qed.

(** The split on blank lines, read from the left: the text before the
    first blank line, then the split of what follows it. *)
Lemma split_go_unfold (s : string) :
  split_go blank_line 0 s
  = before_first blank_line s
    :: match after_first blank_line s with
       | Some rest => split_go blank_line 0 rest
       | None => []
       end.
Proof.
  induction s as [| c t IH]; [reflexivity |].
  destruct (String.prefix blank_line (String c t)) eqn:E.
  - cbn [split_go before_first after_first]. rewrite E.
    rewrite prefix_blank_line in E. apply andb_true_iff in E as [_ E].
    destruct t as [| c' t']; [discriminate |]. reflexivity.
  - rewrite split_go_cons by exact E.
    cbn [before_first after_first]. rewrite E, IH. reflexivity.
Qed.

Lemma after_first_str_in (s rest : string) :
  after_first blank_line s = Some rest -> str_in blank_line s = true.
Proof.
  induction s as [| c t IH]; intros H.
  - discriminate H.
  - change (str_in blank_line (String c t))
      with (String.prefix blank_line (String c t) || str_in blank_line t).
    cbn [after_first] in H.
    destruct (String.prefix blank_line (String c t)); [reflexivity |].
    cbn [orb]. now apply IH.
Qed.

(** C9, as the code has it: the recovered description is the second
    segment of the split of the document on every blank line, that is the
    part of the text after the first blank line that precedes the next
    blank line; for a document in the documented format, with one-line
    header fields and description, it is the description of the course,
    without the keywords section. *)
Theorem extract_description_second_segment :
  (forall document rest,
     after_first_blank_line document = Some rest ->
     extract_description document = before_first_blank_line rest)
  /\ (forall course keywords,
        single_line_fields course ->
        extract_description (format_document_text course keywords)
        = ProcessedCourse.description course).
Proof.
  split; [| apply extract_description_format_document_text].
  unfold after_first_blank_line, before_first_blank_line.
  intros document rest Hrest.
  unfold extract_description, split.
  rewrite (after_first_str_in _ _ Hrest), split_go_unfold, Hrest.
  now rewrite (split_go_unfold rest).
Qed.

Lemma extract_description_second_segment_witness :
  extract_description
    (format_document_text Fixture.educ_100w ["ethics"; "logic"])
  = before_first_blank_line
      (ProcessedCourse.description Fixture.educ_100w +:+ blank_line
       +:+ "Good for students interested in: ethics, logic")
  /\ extract_description
       (format_document_text Fixture.educ_100w ["ethics"; "logic"])
     = ProcessedCourse.description Fixture.educ_100w.
Proof.
  destruct extract_description_second_segment as [Hsegment Hformat].
  split.
  - apply Hsegment. reflexivity.
  - apply Hformat. repeat split; reflexivity.
Defined.

(** C9 as stated fails: for the document of EDUC 100W with two keywords,
    everything after the first blank line is the description, a blank
    line and the keywords section, while the recovered description is the
    description alone. *)
Lemma extract_description_drops_keywords :
  after_first_blank_line
    (format_document_text Fixture.educ_100w ["ethics"; "logic"])
  = Some (ProcessedCourse.description Fixture.educ_100w +:+ blank_line
          +:+ "Good for students interested in: ethics, logic")
  /\ extract_description
       (format_document_text Fixture.educ_100w ["ethics"; "logic"])
     = ProcessedCourse.description Fixture.educ_100w
  /\ Some (extract_description
             (format_document_text Fixture.educ_100w ["ethics"; "logic"]))
     <> after_first_blank_line
          (format_document_text Fixture.educ_100w ["ethics"; "logic"]).
Proof.
  split; [reflexivity |]. split; [reflexivity |].
  vm_compute. discriminate.
Qed.

(** ** The response is produced *)

Lemma round3_unit_interval (x : Q) :
  (0 <= x)%Q -> (x <= 1)%Q -> (0 <= round3 x)%Q /\ (round3 x <= 1)%Q.
Proof.
  intros Hlo Hhi. unfold round3.
  destruct (round_half_even_close (x * 1000)) as [Hup Hdown].
  set (n := round_half_even (x * 1000)) in *.
  assert (Hn0 : -1 < n).
  { rewrite Zlt_Qlt. change (inject_Z (-1)) with (-1)%Q. lra. }
  assert (Hn1 : n < 1001).
  { rewrite Zlt_Qlt. change (inject_Z 1001) with 1001%Q. lra. }
  unfold Qle. simpl. lia.
Qed.

(** When the three services answer, [recommend] returns a response. *)
Lemma recommend_returns json_loads self query filters top_k min_relevance
    interpretation query_embedding candidates :
  interpret_query json_loads self query = Ok interpretation ->
  embed_query self (join " " (QueryInterpretation.topics interpretation))
  = Ok query_embedding ->
  search_courses self query_embedding filters (top_k * 2) = Ok candidates ->
  (forall prompt, exists text,
     generate_content self prompt match_reason_config = Ok text) ->
  exists resp,
    recommend json_loads self query filters top_k min_relevance = Ok resp.
Proof.
  intros Hi Hemb Hs Hmodel.
  unfold recommend. rewrite Hi. cbn [rbind]. rewrite Hemb. cbn [rbind].
  rewrite Hs. cbn [rbind].
  assert (Hall : forall l,
             (forall c, In c l -> In c candidates) ->
             exists courses, rmap_list (build_course self query) l = Ok courses).
  { induction l as [| c l IH]; intros Hin; [now exists [] |].
    destruct (IH (fun c' H => Hin c' (or_intror H))) as [courses Hcourses].
    destruct (search_courses_relevance_bounds _ _ _ _ _ c Hs (Hin c (or_introl eq_refl)))
      as [Hlo Hhi].
    destruct (round3_unit_interval _ Hlo Hhi) as [Hrlo Hrhi].
    cbn [rmap_list]. unfold build_course at 1, generate_match_reason.
    destruct (Hmodel (MATCH_REASON_PROMPT query
                        (get_str (metadata c) "course_code" "")
                        (get_str (metadata c) "title" "")
                        (if (500 <? String.length (extract_description (document c)))%nat
                         then take_str 500 (extract_description (document c))
                         else extract_description (document c)))) as [text Htext].
    rewrite Htext. cbn [rbind]. unfold CourseResult_validate.
    cbn [CourseResult.relevance_score].
    apply Qle_bool_iff in Hrlo, Hrhi. rewrite Hrlo, Hrhi. cbn [andb rbind].
    rewrite Hcourses. cbn [rbind]. eauto. }
  destruct (Hall (slice_to top_k
                    (List.filter (fun c => Qle_bool min_relevance (relevance_score c))
                       candidates))) as [courses Hcourses].
  { intros c Hc. now apply threshold_filter_above in Hc as [Hc _]. }
  rewrite Hcourses. cbn [rbind]. eauto.
Qed.

(** * Further properties of the pipeline *)

(** ** WQB designations *)

Lemma wqb_fold_spec (designation : string) (patterns : list (string * WQBCode))
    (codes : list WQBCode) :
  NoDup codes ->
  NoDup (fold_left (wqb_step designation) patterns codes)
  /\ forall code,
       In code (fold_left (wqb_step designation) patterns codes)
       <-> In code codes
           \/ exists pattern,
                In (pattern, code) patterns /\ str_in pattern designation = true.
Proof.
  revert codes. induction patterns as [| [p c] ps IH]; intros codes Hnd.
  - split; [exact Hnd |]. intros code. simpl. split; [tauto |].
    intros [H | [p [[] _]]]. exact H.
  - cbn [fold_left]. unfold wqb_step at 2 4.
    destruct (str_in p designation) eqn:Ep; cbn [andb].
    + destruct (bool_decide (c ∈ codes)) eqn:Ec; cbn [negb].
      * apply bool_decide_eq_true in Ec. apply list_elem_of_In in Ec.
        destruct (IH codes Hnd) as [Hnd' Hin]. split; [exact Hnd' |].
        intros code. rewrite Hin. split.
        -- intros [H | [q [Hq Hs]]]; [now left |].
           right. exists q. split; [now right | exact Hs].
        -- intros [H | [q [[Heq | Hq] Hs]]]; [now left | | right; eauto].
           injection Heq as <- <-. now left.
      * apply bool_decide_eq_false in Ec. rewrite list_elem_of_In in Ec.
        assert (Hnd2 : NoDup (codes ++ [c])).
        { apply NoDup_ListNoDup, List.NoDup_app; try (apply NoDup_ListNoDup; assumption).
          - apply NoDup_ListNoDup, NoDup_singleton.
          - intros x Hx [<- | []]. contradiction. }
        destruct (IH (codes ++ [c]) Hnd2) as [Hnd' Hin]. split; [exact Hnd' |].
        intros code. rewrite Hin, in_app_iff. split.
        -- intros [[H | [<- | []]] | [q [Hq Hs]]].
           ++ now left.
           ++ right. exists p. split; [now left | exact Ep].
           ++ right. exists q. split; [now right | exact Hs].
        -- intros [H | [q [[Heq | Hq] Hs]]].
           ++ left. now left.
           ++ injection Heq as <- <-. left. right. now left.
           ++ right. eauto.
    + destruct (IH codes Hnd) as [Hnd' Hin]. split; [exact Hnd' |].
      intros code. rewrite Hin. split.
      * intros [H | [q [Hq Hs]]]; [now left |].
        right. exists q. split; [now right | exact Hs].
      * intros [H | [q [[Heq | Hq] Hs]]]; [now left | | right; eauto].
        injection Heq as <- <-. congruence.
Qed.

Lemma parse_wqb_fold (designation : string) :
  nonempty designation = true ->
  parse_wqb designation = fold_left (wqb_step designation) WQB_PATTERNS [].
Proof. unfold parse_wqb. intros ->. reflexivity. Qed.

Lemma parse_wqb_NoDup (designation : string) : NoDup (parse_wqb designation).
Proof.
  destruct (nonempty designation) eqn:E.
  - rewrite parse_wqb_fold by exact E.
    apply (wqb_fold_spec designation WQB_PATTERNS []). constructor.
  - unfold parse_wqb. rewrite E. constructor.
Qed.

Lemma NoDup_WQBCode_length (codes : list WQBCode) :
  NoDup codes -> (length codes <= 5)%nat.
Proof.
  intros Hnd.
  change 5%nat with (length [WQB_Q; WQB_W; B_SCI; B_SOC; B_HUM]).
  apply NoDup_incl_length; [now apply NoDup_ListNoDup |].
  intros c _. destruct c; simpl; tauto.
Qed.

(** X1: whatever the designation text, [parse_wqb] lists every code at
    most once, hence at most five codes. *)
Theorem parse_wqb_distinct (designation : string) :
  NoDup (parse_wqb designation) /\ (length (parse_wqb designation) <= 5)%nat.
Proof.
  split; [apply parse_wqb_NoDup |].
  apply NoDup_WQBCode_length, parse_wqb_NoDup.
Qed.

(** X2: a code is in the result of [parse_wqb] exactly when one of the
    patterns of that code occurs in the designation text. *)
Theorem parse_wqb_complete (designation : string) (code : WQBCode) :
  In code (parse_wqb designation)
  <-> exists pattern,
        In (pattern, code) WQB_PATTERNS /\ str_in pattern designation = true.
Proof.
  destruct (nonempty designation) eqn:E.
  - rewrite parse_wqb_fold by exact E.
    destruct (wqb_fold_spec designation WQB_PATTERNS [] (NoDup_nil_2)) as [_ H].
    rewrite H. simpl In at 1. tauto.
  - unfold parse_wqb. rewrite E. cbn [negb].
    destruct designation; [| discriminate]. split; [intros [] |].
    intros [pattern [Hin Hs]]. exfalso.
    unfold WQB_PATTERNS in Hin. simpl in Hin.
    repeat (destruct Hin as [Hin | Hin];
            [injection Hin as <- <-; discriminate Hs |]).
    exact Hin.
Qed.

(** ** Exclusion and score *)




(** X4: for a course whose WQB codes were read by [parse_wqb], the
    elective score lies between 0 and 41. *)
Theorem elective_score_of_parsed_wqb (course : ProcessedCourse.t)
    (designation : string) :
  ProcessedCourse.wqb course = parse_wqb designation ->
  0 <= calculate_elective_score course <= 41.
Proof.
  intros Hwqb.
  destruct (calculate_elective_score_range course) as [Hlo Hhi].
  pose proof (NoDup_WQBCode_length _ (parse_wqb_NoDup designation)) as Hlen.
  rewrite <- Hwqb in Hlen. unfold len in *. lia.
Qed.

Lemma elective_score_of_parsed_wqb_witness :
  0 <= calculate_elective_score Fixture.educ_100w <= 41.
Proof.
  apply (elective_score_of_parsed_wqb Fixture.educ_100w
           "Writing/Breadth-Humanities/Breadth-Social Sciences").
  reflexivity.
Defined.




(** ** Retrieval *)








(** A filter that is [None] or an empty list is not active. *)
Lemma survives_inactive (filters : QueryFilters.t) (c : Candidate) :
  truthy (QueryFilters.campus filters) = false ->
  truthy (QueryFilters.wqb filters) = false ->
  truthy (QueryFilters.exclude_departments filters) = false ->
  survives filters c.
Proof.
  intros Hc Hw He. unfold survives, passes_list_filter, passes_exclusion.
  rewrite Hc, Hw, He. repeat split; discriminate.
Qed.

Lemma post_filter_all_survive (courses : list Candidate) (filters : QueryFilters.t) :
  Forall (survives filters) courses ->
  _post_filter_courses courses filters = courses.
Proof.
  induction 1 as [| c rest Hc _ IH]; [reflexivity |].
  destruct (post_filter_cons c rest filters) as [[_ Heq] | [Hn _]];
    [| contradiction].
  now rewrite Heq, IH.
Qed.

(** X9: list filters that are [None] or empty do not filter: the
    post-filter returns the candidates unchanged (an empty campus list
    is no constraint, not a constraint that nothing meets). *)
Theorem post_filter_inactive (courses : list Candidate) (filters : QueryFilters.t) :
  truthy (QueryFilters.campus filters) = false ->
  truthy (QueryFilters.wqb filters) = false ->
  truthy (QueryFilters.exclude_departments filters) = false ->
  _post_filter_courses courses filters = courses.
Proof.
  intros Hc Hw He. apply post_filter_all_survive.
  apply List.Forall_forall. intros c _. now apply survives_inactive.
Qed.

Lemma post_filter_inactive_witness :
  _post_filter_courses (map to_candidate Fixture.SAMPLE_COURSES)
    (QueryFilters.mk (Some []) None (Some 200) (Some true) (Some []))
  = map to_candidate Fixture.SAMPLE_COURSES.
Proof. apply post_filter_inactive; reflexivity. Defined.

(** X10: filtering is idempotent: the survivors of the post-filter all
    pass it again. *)
Theorem post_filter_idempotent (courses : list Candidate) (filters : QueryFilters.t) :
  _post_filter_courses (_post_filter_courses courses filters) filters
  = _post_filter_courses courses filters.
Proof.
  apply post_filter_all_survive. apply List.Forall_forall. intros c Hin.
  now apply post_filter_courses_In in Hin as [_ Hs].
Qed.

(** ** The response *)







(** ** Text cleaning *)












(** ** Numbers in course data *)





Lemma int_of_digits_from_pos (d : Decimal.uint) (acc : positive) :
  int_of_digits_from (Z.pos acc) (NilEmpty.string_of_uint d)
  = Z.pos (Pos.of_uint_acc d acc).
Proof.
  revert acc. induction d; intros acc; cbn [NilEmpty.string_of_uint
    int_of_digits_from Pos.of_uint_acc]; [reflexivity | ..];
    match goal with
    | |- int_of_digits_from ?a _ = Z.pos (Pos.of_uint_acc _ ?b) =>
        replace a with (Z.pos b) by (unfold digit_value; simpl; lia)
    end; apply IHd.
Qed.

Lemma int_of_digits_of_uint (d : Decimal.uint) :
  int_of_digits (NilEmpty.string_of_uint d) = Z.of_N (Pos.of_uint d).
Proof.
  unfold int_of_digits.
  induction d; cbn [NilEmpty.string_of_uint int_of_digits_from Pos.of_uint];
    [reflexivity | exact IHd | ..];
    match goal with
    | |- int_of_digits_from ?a _ = Z.of_N (N.pos (Pos.of_uint_acc _ ?b)) =>
        replace a with (Z.pos b) by (unfold digit_value; simpl; lia)
    end; apply int_of_digits_from_pos.
Qed.

Lemma str_of_int_nonneg (n : Z) :
  0 <= n ->
  exists d, d <> Decimal.Nil
            /\ str_of_int n = NilEmpty.string_of_uint d
            /\ Z.of_N (Pos.of_uint d) = n.
Proof.
  intros Hn. destruct n as [| p | p]; [| | lia].
  - exists (Decimal.D0 Decimal.Nil). repeat split. discriminate.
  - exists (Pos.to_uint p).
    pose proof (DecimalPos.Unsigned.to_uint_nonnil p) as Hnil.
    split; [exact Hnil |]. split.
    + unfold str_of_int. cbn [Z.to_int NilZero.string_of_int].
      unfold NilZero.string_of_uint. destruct (Pos.to_uint p); congruence.
    + now rewrite DecimalPos.Unsigned.of_to.
Qed.

(** Reading a printed number gives the number back. *)
Lemma int_of_digits_str_of_int (n : Z) :
  0 <= n -> int_of_digits (str_of_int n) = n.
Proof.
  intros Hn. destruct (str_of_int_nonneg n Hn) as (d & _ & -> & Hd).
  now rewrite int_of_digits_of_uint.
Qed.

Lemma all_digits_string_of_uint (d : Decimal.uint) :
  all_digits (NilEmpty.string_of_uint d) = true.
Proof. induction d; simpl; auto. Qed.

Lemma str_of_int_digits (n : Z) :
  0 <= n -> all_digits (str_of_int n) = true /\ nonempty (str_of_int n) = true.
Proof.
  intros Hn. destruct (str_of_int_nonneg n Hn) as (d & Hnil & -> & _).
  split; [apply all_digits_string_of_uint |].
  destruct d; try reflexivity. congruence.
Qed.

Lemma take_digits_all (s : string) : all_digits s = true -> take_digits s = s.
Proof.
  induction s as [| c s IH]; [reflexivity |].
  cbn [all_digits take_digits]. intros H.
  apply andb_true_iff in H as [Hc Hs]. now rewrite Hc, IH.
Qed.

Lemma search_slash_digits_after (a b : string) :
  all_digits a = true -> all_digits b = true -> nonempty b = true ->
  search_slash_digits (a +:+ "/" +:+ b) = Some b.
Proof.
  intros Ha Hb Hne. induction a as [| c a IH].
  - change (EmptyString +:+ "/" +:+ b) with (String "/" b).
    cbn [search_slash_digits]. rewrite Ascii.eqb_refl, (take_digits_all b Hb), Hne.
    reflexivity.
  - cbn [all_digits] in Ha. apply andb_true_iff in Ha as [Hc Ha].
    change (String c a +:+ "/" +:+ b) with (String c (a +:+ "/" +:+ b)).
    cbn [search_slash_digits].
    assert (Hslash : Ascii.eqb c "/" = false).
    { apply Ascii.eqb_neq. intros ->. discriminate Hc. }
    rewrite Hslash. cbn [andb]. now apply IH.
Qed.

(** X14: [parse_enrollment] reads the capacity of an enrolment text
    "enrolled/capacity" written with two numbers that are not negative;
    an empty text, and a text without a digit after a slash, give 0. *)
Theorem parse_enrollment_reads_capacity (enrolled capacity : Z) :
  0 <= enrolled -> 0 <= capacity ->
  parse_enrollment (str_of_int enrolled +:+ "/" +:+ str_of_int capacity) = capacity
  /\ parse_enrollment EmptyString = 0
  /\ parse_enrollment (str_of_int enrolled) = 0.
Proof.
  intros He Hc.
  destruct (str_of_int_digits enrolled He) as [Hde Hne].
  destruct (str_of_int_digits capacity Hc) as [Hdc Hnc].
  split; [| split; [reflexivity |]].
  - unfold parse_enrollment.
    rewrite (nonempty_app_l _ _ Hne). cbn [negb].
    rewrite search_slash_digits_after by assumption.
    now apply int_of_digits_str_of_int.
  - unfold parse_enrollment. rewrite Hne. cbn [negb].
    assert (Hnone : forall s, all_digits s = true -> search_slash_digits s = None).
    { induction s as [| c s IH]; [reflexivity |].
      cbn [all_digits search_slash_digits]. intros H.
      apply andb_true_iff in H as [Hcd Hs].
      assert (Hslash : Ascii.eqb c "/" = false).
      { apply Ascii.eqb_neq. intros ->. discriminate Hcd. }
      rewrite Hslash. now apply IH. }
    now rewrite (Hnone _ Hde).
Qed.

Lemma parse_enrollment_reads_capacity_witness :
  parse_enrollment "50/200" = 200.
Proof.
  apply (parse_enrollment_reads_capacity 50 200); lia.
Defined.

(** ** Prerequisites *)




(** ** Processed courses *)




(** ** Merging of sections *)


Lemma max_by_spec {A} (key : A -> nat) (best : A) (l : list A) :
  In (max_by key best l) (best :: l)
  /\ (key best <= key (max_by key best l))%nat
  /\ Forall (fun x => (key x <= key (max_by key best l))%nat) l.
Proof.
  revert best. induction l as [| x l IH]; intros best.
  - cbn [max_by]. repeat split; [now left | lia | constructor].
  - cbn [max_by]. destruct (key best <? key x)%nat eqn:E.
    + apply Nat.ltb_lt in E. destruct (IH x) as (Hin & Hle & Hall).
      split; [right; exact Hin |]. split; [lia |].
      constructor; [exact Hle | exact Hall].
    + apply Nat.ltb_ge in E. destruct (IH best) as (Hin & Hle & Hall).
      split; [destruct Hin as [<- | Hin]; [now left | right; now right] |].
      split; [exact Hle |]. constructor; [lia | exact Hall].
Qed.



(** ** Grouping of sections by course code *)

Lemma sum_Z_from (l : list Z) (a : Z) : fold_left Z.add l a = a + sum_Z l.
Proof.
  unfold sum_Z. revert a. induction l as [| x l IH]; intros a; cbn [fold_left].
  - lia.
  - rewrite (IH (a + x)), (IH (0 + x)). lia.
Qed.

Lemma sum_Z_cons (x : Z) (l : list Z) : sum_Z (x :: l) = x + sum_Z l.
Proof. unfold sum_Z at 1. cbn [fold_left]. rewrite sum_Z_from. lia. Qed.

Lemma sum_Z_app (l1 l2 : list Z) : sum_Z (l1 ++ l2) = sum_Z l1 + sum_Z l2.
Proof.
  induction l1 as [| x l1 IH]; [reflexivity |].
  cbn [app]. rewrite !sum_Z_cons, IH. lia.
Qed.

Lemma sum_Z_perm (l1 l2 : list Z) : Permutation l1 l2 -> sum_Z l1 = sum_Z l2.
Proof.
  induction 1 as [| x l1 l2 _ IH | x y l | l1 l2 l3 _ IH1 _ IH2].
  - reflexivity.
  - rewrite !sum_Z_cons, IH. reflexivity.
  - rewrite !sum_Z_cons. lia.
  - congruence.
Qed.

Lemma group_append_keys (code : string) (course : RawSection.t)
    (course_map : list (string * list RawSection.t)) (k : string) :
  In k (map fst (group_append code course course_map))
  <-> k = code \/ In k (map fst course_map).
Proof.
  induction course_map as [| [k0 sections] rest IH]; cbn [group_append map fst In].
  - intuition congruence.
  - destruct (String.eqb k0 code) eqn:E; cbn [map fst In].
    + apply String.eqb_eq in E. subst k0. intuition congruence.
    + rewrite IH. tauto.
Qed.

Lemma group_append_sections (code : string) (course : RawSection.t)
    (course_map : list (string * list RawSection.t)) :
  Permutation (concat (map snd (group_append code course course_map)))
    (course :: concat (map snd course_map)).
Proof.
  induction course_map as [| [k0 sections] rest IH];
    cbn [group_append map snd concat].
  - reflexivity.
  - destruct (String.eqb k0 code); cbn [map snd concat].
    + rewrite <- List.app_assoc. cbn [app].
      symmetry. apply Permutation_middle.
    + rewrite IH. symmetry. apply Permutation_middle.
Qed.

Lemma group_append_well_grouped (code : string) (course : RawSection.t)
    (course_map : list (string * list RawSection.t)) :
  nonempty code = true ->
  RawSection.course_code course = code ->
  well_grouped course_map ->
  well_grouped (group_append code course course_map).
Proof.
  intros Hne Hcode [Hnd Hall]. split.
  - induction course_map as [| [k0 sections] rest IH];
      cbn [group_append map fst].
    + constructor; [intros H; inversion H | constructor].
    + cbn [map fst] in Hnd. pose proof Hnd as Hnd'.
      apply NoDup_cons in Hnd'. destruct Hnd' as [Hnotin Hnd'].
      destruct (String.eqb k0 code) eqn:E; cbn [map fst].
      * exact Hnd.
      * apply NoDup_cons. split.
        -- rewrite list_elem_of_In, group_append_keys.
           intros [-> | Hin]; [rewrite String.eqb_refl in E; discriminate |].
           apply Hnotin. rewrite list_elem_of_In. exact Hin.
        -- apply IH; [exact Hnd' | now apply List.Forall_cons_iff in Hall].
  - clear Hnd. induction course_map as [| [k0 sections] rest IH];
      cbn [group_append].
    + constructor; [| constructor]. cbn [fst snd].
      split; [exact Hne |]. split; [discriminate |].
      constructor; [exact Hcode | constructor].
    + apply List.Forall_cons_iff in Hall.
      destruct Hall as [(Hk & Hnil & Hsec) Hrest].
      cbn [fst snd] in Hk, Hnil, Hsec.
      destruct (String.eqb k0 code) eqn:E.
      * apply String.eqb_eq in E. subst k0.
        constructor; [| exact Hrest]. cbn [fst snd].
        split; [exact Hk |]. split; [now destruct sections |].
        apply Forall_app. split; [exact Hsec |].
        constructor; [exact Hcode | constructor].
      * constructor; [| apply IH; exact Hrest]. cbn [fst snd]. tauto.
Qed.

Lemma group_sections_from (raw_courses : list RawSection.t)
    (course_map : list (string * list RawSection.t)) :
  let grouped :=
    fold_left
      (fun course_map course =>
         let code := RawSection.course_code course in
         if nonempty code then group_append code course course_map
         else course_map)
      raw_courses course_map in
  well_grouped course_map ->
  well_grouped grouped
  /\ Permutation (concat (map snd grouped))
       (concat (map snd course_map) ++ List.filter has_course_code raw_courses)
  /\ forall k, In k (map fst grouped)
               <-> In k (map fst course_map)
                   \/ nonempty k = true
                      /\ In k (map RawSection.course_code raw_courses).
Proof.
  cbv zeta. revert course_map.
  induction raw_courses as [| course raw IH]; intros course_map Hwg;
    cbn [fold_left List.filter map In].
  - split; [exact Hwg |]. split; [now rewrite List.app_nil_r | tauto].
  - unfold has_course_code at 1.
    destruct (nonempty (RawSection.course_code course)) eqn:Hne.
    + destruct (IH (group_append (RawSection.course_code course) course course_map))
        as (Hwg' & Hperm & Hkeys);
        [apply group_append_well_grouped; [exact Hne | reflexivity | exact Hwg] |].
      split; [exact Hwg' |]. split.
      * rewrite Hperm, group_append_sections. cbn [app].
        rewrite <- Permutation_middle. reflexivity.
      * intros k. rewrite Hkeys, group_append_keys.
        split.
        -- intros [[-> | Hin] | [Hk Hin]]; [right | left | right]; auto.
        -- intros [Hin | [Hk [<- | Hin]]]; auto.
    + destruct (IH course_map Hwg) as (Hwg' & Hperm & Hkeys).
      split; [exact Hwg' |]. split; [exact Hperm |].
      intros k. rewrite Hkeys. split.
      * intros [Hin | [Hk Hin]]; auto.
      * intros [Hin | [Hk [<- | Hin]]]; auto. congruence.
Qed.

Lemma group_sections_spec (raw_courses : list RawSection.t) :
  well_grouped (group_sections raw_courses)
  /\ Permutation (concat (map snd (group_sections raw_courses)))
       (List.filter has_course_code raw_courses)
  /\ forall k, In k (map fst (group_sections raw_courses))
               <-> nonempty k = true
                   /\ In k (map RawSection.course_code raw_courses).
Proof.
  destruct (group_sections_from raw_courses []) as (Hwg & Hperm & Hkeys).
  { split; constructor. }
  split; [exact Hwg |]. split; [exact Hperm |].
  intros k. rewrite (Hkeys k). cbn [map In]. tauto.
Qed.

Lemma merge_sections_best (code : string) (sections : list RawSection.t)
    (merged : MergedCourse.t) :
  _merge_sections code sections = Some merged ->
  MergedCourse.course_code merged = code
  /\ MergedCourse.total_capacity merged = sum_Z (map section_capacity sections)
  /\ exists best,
       In best sections
       /\ MergedCourse.title merged = RawSection.title best
       /\ MergedCourse.description merged = RawSection.description best.
Proof.
  unfold _merge_sections. destruct sections as [| s0 rest]; [discriminate |].
  intros H. injection H as <-.
  split; [reflexivity |]. split; [reflexivity |].
  eexists. split; [| split; reflexivity].
  apply (max_by_spec (fun s => String.length (RawSection.description s))).
Qed.

Lemma deduplicate_groups (course_map : list (string * list RawSection.t)) :
  Forall (fun g =>
            nonempty (fst g) = true
            /\ snd g <> []
            /\ Forall (fun s => RawSection.course_code s = fst g) (snd g))
    course_map ->
  let merged :=
    omap (fun '(code, sections) => _merge_sections code sections) course_map in
  map MergedCourse.course_code merged = map fst course_map
  /\ sum_Z (map MergedCourse.total_capacity merged)
     = sum_Z (map section_capacity (concat (map snd course_map)))
  /\ Forall (fun m =>
               exists best,
                 In best (concat (map snd course_map))
                 /\ RawSection.course_code best = MergedCourse.course_code m
                 /\ MergedCourse.title m = RawSection.title best
                 /\ MergedCourse.description m = RawSection.description best)
       merged.
Proof.
  cbv zeta. induction 1 as [| [code sections] rest (_ & Hnil & Hsec) _ IH].
  - repeat split. constructor.
  - cbn [fst snd] in Hnil, Hsec. cbn [omap list_omap].
    destruct (_merge_sections code sections) as [m |] eqn:E;
      [| now destruct sections].
    destruct (merge_sections_best _ _ _ E) as (Hcode & Hcap & best & Hin & Ht & Hd).
    destruct IH as (IHk & IHc & IHb).
    cbn [map fst snd concat]. split; [now rewrite Hcode, IHk |]. split.
    + rewrite sum_Z_cons, IHc, Hcap, List.map_app, sum_Z_app. reflexivity.
    + constructor.
      * exists best. split; [apply in_or_app; now left |].
        split; [| tauto]. rewrite Hcode.
        rewrite List.Forall_forall in Hsec. exact (Hsec best Hin).
      * eapply List.Forall_impl; [| exact IHb].
        intros m' (b & Hb & Hb'). exists b.
        split; [apply in_or_app; now right | exact Hb'].
Qed.

(** X18: [_deduplicate] yields one course for every non-empty course
    code of the input, each code once; no enrolment capacity is lost or
    counted twice; every merged course has the title and description of
    an input section of its code. *)
Theorem deduplicate_spec (raw_courses : list RawSection.t) :
  let merged := _deduplicate raw_courses in
  NoDup (map MergedCourse.course_code merged)
  /\ (forall code,
        In code (map MergedCourse.course_code merged)
        <-> nonempty code = true
            /\ In code (map RawSection.course_code raw_courses))
  /\ sum_Z (map MergedCourse.total_capacity merged)
     = sum_Z (map section_capacity (List.filter has_course_code raw_courses))
  /\ Forall (fun m =>
               exists s,
                 In s raw_courses
                 /\ RawSection.course_code s = MergedCourse.course_code m
                 /\ MergedCourse.title m = RawSection.title s
                 /\ MergedCourse.description m = RawSection.description s)
       merged.
Proof.
  cbv zeta. unfold _deduplicate.
  destruct (group_sections_spec raw_courses) as ([Hnd Hall] & Hperm & Hkeys).
  destruct (deduplicate_groups (group_sections raw_courses) Hall) as (Hk & Hc & Hb).
  rewrite Hk. split; [exact Hnd |]. split; [exact Hkeys |]. split.
  - rewrite Hc. apply sum_Z_perm, Permutation_map, Hperm.
  - eapply List.Forall_impl; [| exact Hb].
    intros m (best & Hin & Hrest). exists best. split; [| exact Hrest].
    apply (Permutation_in _ Hperm) in Hin.
    apply filter_In in Hin. tauto.
Qed.

(** ** The preprocessing pipeline as a whole *)








(** ** Keywords *)

Lemma to_lower_facts (c : ascii) :
  is_space (to_lower c) = is_space c
  /\ is_upper (to_lower c) = false
  /\ Ascii.eqb (to_lower c) "," = Ascii.eqb c ",".
Proof. destruct c as [[] [] [] [] [] [] [] []]; repeat split. Qed.

Lemma lower_lstrip (s : string) : lower (lstrip s) = lstrip (lower s).
Proof.
  induction s as [| c s IH]; [reflexivity |].
  cbn [lstrip lower]. rewrite (proj1 (to_lower_facts c)).
  destruct (is_space c); [exact IH | reflexivity].
Qed.

Lemma lower_rstrip (s : string) : lower (rstrip s) = rstrip (lower s).
Proof.
  induction s as [| c s IH]; [reflexivity |].
  cbn [rstrip lower]. rewrite <- IH, (proj1 (to_lower_facts c)).
  destruct (rstrip s); [now destruct (is_space c) | reflexivity].
Qed.

Lemma lower_strip (s : string) : lower (strip s) = strip (lower s).
Proof. unfold strip. now rewrite lower_rstrip, lower_lstrip. Qed.

Lemma lower_lower_case (s : string) : lower_case (lower s) = true.
Proof.
  induction s as [| c s IH]; [reflexivity |].
  cbn [lower lower_case].
  now rewrite (proj1 (proj2 (to_lower_facts c))), IH.
Qed.

Lemma lower_comma_free (s : string) : comma_free (lower s) = comma_free s.
Proof.
  induction s as [| c s IH]; [reflexivity |].
  cbn [lower comma_free].
  now rewrite (proj2 (proj2 (to_lower_facts c))), IH.
Qed.

Lemma lower_nonempty (s : string) : nonempty (lower s) = nonempty s.
Proof. now destruct s. Qed.

Lemma rstrip_idempotent (s : string) : rstrip (rstrip s) = rstrip s.
Proof.
  induction s as [| c s IH]; [reflexivity |].
  cbn [rstrip]. destruct (rstrip s) as [| c' r] eqn:E.
  - destruct (is_space c) eqn:Ec; [reflexivity |].
    cbn [rstrip]. now rewrite Ec.
  - cbn [rstrip] in IH |- *. 
    change (match rstrip (String c' r) with
            | EmptyString => if is_space c then EmptyString else String c EmptyString
            | String a b => String c (String a b)
            end = String c (String c' r)).
    cbn [rstrip]. now rewrite IH.
Qed.

Lemma lstrip_rstrip_lstrip (s : string) :
  lstrip (rstrip (lstrip s)) = rstrip (lstrip s).
Proof.
  induction s as [| c s IH]; [reflexivity |].
  cbn [lstrip]. destruct (is_space c) eqn:Ec; [exact IH |].
  cbn [rstrip]. destruct (rstrip s); rewrite ?Ec; cbn [lstrip]; now rewrite Ec.
Qed.

Lemma strip_idempotent (s : string) : strip (strip s) = strip s.
Proof.
  unfold strip. now rewrite lstrip_rstrip_lstrip, rstrip_idempotent.
Qed.

Lemma lstrip_comma_free (s : string) :
  comma_free s = true -> comma_free (lstrip s) = true.
Proof.
  induction s as [| c s IH]; [reflexivity |]. intros H.
  cbn [lstrip]. destruct (is_space c); [| exact H].
  cbn [comma_free] in H. apply andb_true_iff in H. now apply IH.
Qed.

Lemma rstrip_comma_free (s : string) :
  comma_free s = true -> comma_free (rstrip s) = true.
Proof.
  induction s as [| c s IH]; [reflexivity |]. intros H.
  cbn [comma_free] in H. apply andb_true_iff in H as [Hc Hs].
  cbn [rstrip]. specialize (IH Hs). destruct (rstrip s).
  - destruct (is_space c); [reflexivity |]. cbn [comma_free]. now rewrite Hc.
  - cbn [comma_free] in IH |- *. now rewrite Hc, IH.
Qed.

Lemma split_comma_pieces (s : string) :
  Forall (fun p => comma_free p = true) (split "," s).
Proof.
  unfold split. induction s as [| c s IH]; [repeat constructor |].
  cbn [split_go]. rewrite prefix_comma.
  destruct (Ascii.eqb c ",") eqn:Ec.
  - constructor; [reflexivity | exact IH].
  - destruct (split_go "," 0 s) as [| p ps].
    + repeat constructor. cbn [comma_free]. now rewrite Ec.
    + apply List.Forall_cons_iff in IH as [Hp Hps].
      constructor; [| exact Hps]. cbn [comma_free]. now rewrite Ec, Hp.
Qed.

Lemma parse_keywords_clean (content : string) :
  Forall (fun k => clean_value k = true /\ lower_case k = true)
    (parse_keywords content).
Proof.
  unfold parse_keywords. apply List.Forall_forall. intros k Hin.
  apply in_map_iff in Hin as (p & <- & Hin).
  apply filter_In in Hin as [Hin Hne].
  pose proof (split_comma_pieces content) as Hall.
  rewrite List.Forall_forall in Hall. specialize (Hall p Hin).
  split; [| apply lower_lower_case].
  unfold clean_value.
  rewrite lower_nonempty, Hne, lower_comma_free.
  unfold strip at 1. rewrite rstrip_comma_free by now apply lstrip_comma_free.
  rewrite <- lower_strip, strip_idempotent. cbn [andb]. apply String.eqb_refl.
Qed.

Section TransformerFacts.

Variable Client : Type.
Variable create : Client -> KeywordPrompt -> Client * result ChatResponse.t.

Lemma keywords_outcome_step (n : nat) (self self1 : CourseTransformer Client)
    (r : list string * CourseTransformer Client) :
  skip_llm self1 = skip_llm self ->
  calls self <= calls self1 <= calls self + 1 ->
  failures self1 = failures self ->
  (client self = None -> client self1 = None /\ calls self1 = calls self) ->
  keywords_outcome n self1 r ->
  keywords_outcome (S n) self r.
Proof.
  intros Hskip Hcalls Hfail Hnone (Hk & Hs & Hc & Hf & Hn).
  unfold keywords_outcome. rewrite Hs, Hskip, <- Hfail.
  split; [exact Hk |]. split; [reflexivity |]. split; [lia |].
  split; [exact Hf |].
  intros H. destruct (Hnone H) as [H1 H2]. destruct (Hn H1) as [H3 H4].
  split; [exact H3 | lia].
Qed.

Lemma generate_keywords_from_outcome (attempts : nat) :
  forall (attempt retries : Z) (prompt : KeywordPrompt)
         (self : CourseTransformer Client),
    keywords_outcome attempts self
      (generate_keywords_from Client create attempts attempt retries prompt self).
Proof.
  induction attempts as [| n IH]; intros attempt retries prompt self.
  - cbn [generate_keywords_from]. unfold keywords_outcome. cbn [fst snd].
    split; [now left |]. split; [reflexivity |]. split; [cbn; lia |].
    split; [now left |]. tauto.
  - assert (Hh : forall self1,
              keywords_outcome n self1
                (if attempt <? retries - 1
                 then generate_keywords_from Client create n (attempt + 1) retries
                        prompt self1
                 else ([], with_stats Client self1
                             (count_failed_keywords (stats self1))))).
    { intros self1. destruct (attempt <? retries - 1); [apply IH |].
      unfold keywords_outcome, calls, failures. cbn [fst snd with_stats stats
        skip_llm client]. destruct (stats self1). cbn.
      split; [now left |]. split; [reflexivity |]. split; [lia |].
      split; [right; split; [lia | reflexivity] |]. tauto. }
    cbn [generate_keywords_from].
    destruct (client self) as [c |] eqn:Ec.
    + destruct (create c prompt) as [c' [response | e]].
      * destruct (ChatResponse.choices response) as [| content rest].
        -- eapply keywords_outcome_step; [| | | | apply Hh].
           ++ now destruct (ChatResponse.usage response).
           ++ unfold calls. destruct (ChatResponse.usage response);
                cbn [stats with_stats with_client]; destruct (stats self); cbn; lia.
           ++ unfold failures. destruct (ChatResponse.usage response);
                cbn [stats with_stats with_client]; destruct (stats self);
                reflexivity.
           ++ intros H. congruence.
        -- unfold keywords_outcome, calls, failures. cbn [fst snd].
           split; [right; eauto |].
           destruct (ChatResponse.usage response);
             cbn [stats with_stats with_client skip_llm client];
             destruct (stats self); cbn;
             (split; [reflexivity |]); (split; [lia |]);
             (split; [now left |]); intros H; congruence.
      * eapply keywords_outcome_step; [| | | | apply Hh].
        -- reflexivity.
        -- unfold calls. cbn [stats with_client]. lia.
        -- reflexivity.
        -- intros H. congruence.
    + eapply keywords_outcome_step; [| | | | apply Hh]; try reflexivity.
      * lia.
      * intros _. split; [exact Ec | reflexivity].
Qed.

Lemma generate_keywords_from_answered (attempts : nat) :
  forall (attempt retries : Z) (prompt : KeywordPrompt)
         (self : CourseTransformer Client),
    attempts = Z.to_nat (retries - attempt) ->
    (0 < attempts)%nat ->
    keywords_answered_or_failed self
      (generate_keywords_from Client create attempts attempt retries prompt self).
Proof.
  induction attempts as [| n IH]; intros attempt retries prompt self Hn Hpos;
    [lia |].
  assert (Hh : forall self1 self0,
            failures self1 = failures self0 ->
            keywords_answered_or_failed self0
              (if attempt <? retries - 1
               then generate_keywords_from Client create n (attempt + 1) retries
                      prompt self1
               else ([], with_stats Client self1
                           (count_failed_keywords (stats self1))))).
  { intros self1 self0 Hf. destruct (attempt <? retries - 1) eqn:E.
    - apply Z.ltb_lt in E.
      destruct (IH (attempt + 1) retries prompt self1) as [(content & H1 & H2) | [H1 H2]];
        [lia | lia | |].
      + left. exists content. split; [exact H1 | congruence].
      + right. split; [exact H1 | congruence].
    - right. split; [reflexivity |]. rewrite <- Hf.
      unfold failures. cbn [snd with_stats stats]. now destruct (stats self1). }
  cbn [generate_keywords_from].
  destruct (client self) as [c |] eqn:Ec; [| now apply Hh].
  destruct (create c prompt) as [c' [response | e]]; [| now apply Hh].
  assert (Hf : forall st,
            failures
              (match ChatResponse.usage response with
               | Some total_tokens =>
                   with_stats Client
                     (with_stats Client (with_client Client self c')
                        (count_llm_call st))
                     (count_tokens total_tokens (count_llm_call st))
               | None =>
                   with_stats Client (with_client Client self c') (count_llm_call st)
               end)
            = TransformStats.failed_keywords st).
  { intros st. unfold failures.
    destruct (ChatResponse.usage response); cbn [stats with_stats]; now destruct st. }
  destruct (ChatResponse.choices response) as [| content rest].
  - apply Hh. apply (Hf (stats self)).
  - left. exists (text_or content ""). split; [reflexivity |].
    apply (Hf (stats self)).
Qed.

Lemma generate_keywords_from_without_client (attempts : nat) :
  forall (attempt retries : Z) (prompt : KeywordPrompt)
         (self : CourseTransformer Client),
    client self = None ->
    attempts = Z.to_nat (retries - attempt) ->
    (0 < attempts)%nat ->
    generate_keywords_from Client create attempts attempt retries prompt self
    = ([], with_stats Client self (count_failed_keywords (stats self))).
Proof.
  induction attempts as [| n IH]; intros attempt retries prompt self Hc Hn Hpos;
    [lia |].
  cbn [generate_keywords_from]. rewrite Hc.
  destruct (attempt <? retries - 1) eqn:E; [| reflexivity].
  apply Z.ltb_lt in E. apply IH; [exact Hc | lia | lia].
Qed.

(** X20: whatever the service answers, [generate_keywords] returns at
    most eight keywords, each of them non-empty, free of commas and of
    surrounding white space, and in lower case. *)
Theorem generate_keywords_shape (self : CourseTransformer Client)
    (course : ProcessedCourse.t) (retries : Z) :
  let keywords := fst (generate_keywords Client create self course retries) in
  len keywords <= 8
  /\ Forall (fun k => clean_value k = true /\ lower_case k = true) keywords.
Proof.
  cbv zeta. unfold generate_keywords.
  match goal with
  | |- context [generate_keywords_from _ _ ?n ?a ?r ?p ?s] =>
      destruct (generate_keywords_from_outcome n a r p s) as ([H | [content H]] & _)
  end; rewrite H.
  - split; [unfold len; cbn [length]; lia | constructor].
  - split.
    + rewrite slice_to_nonneg by lia. unfold len.
      rewrite length_firstn. lia.
    + apply List.Forall_forall. intros k Hin. apply slice_to_incl in Hin.
      pose proof (parse_keywords_clean content) as Hall.
      rewrite List.Forall_forall in Hall. now apply Hall.
Qed.

(** X21: the bookkeeping of [generate_keywords].  Without an attempt
    (a retry count that is not positive) it returns no keyword and
    leaves the transformer as it was; otherwise it either returns the
    keywords of an answer, with the count of failures unchanged, or
    returns no keyword and counts one failure.  It counts at most one
    call for each attempt. *)
Theorem generate_keywords_accounting (self : CourseTransformer Client)
    (course : ProcessedCourse.t) (retries : Z) :
  let r := generate_keywords Client create self course retries in
  (retries <= 0 /\ r = ([], self)
   \/ 0 < retries /\ keywords_answered_or_failed self r)
  /\ calls self <= calls (snd r) <= calls self + Z.max 0 retries.
Proof.
  cbv zeta. unfold generate_keywords. split.
  - destruct (Z_le_gt_dec retries 0) as [Hle | Hgt].
    + left. split; [exact Hle |].
      replace (Z.to_nat retries) with 0%nat by lia. reflexivity.
    + right. split; [lia |].
      apply generate_keywords_from_answered; lia.
  - match goal with
    | |- context [generate_keywords_from _ _ ?n ?a ?r ?p ?s] =>
        destruct (generate_keywords_from_outcome n a r p s) as (_ & _ & H & _)
    end.
    lia.
Qed.

(** X22: a transformer without client, as [skip_llm] builds it, that
    is asked for keywords all the same makes no call: every attempt
    fails, no keyword is returned and one failure is counted. *)
Theorem generate_keywords_without_client (self : CourseTransformer Client)
    (course : ProcessedCourse.t) (retries : Z) :
  0 < retries ->
  client self = None ->
  generate_keywords Client create self course retries
  = ([], with_stats Client self (count_failed_keywords (stats self))).
Proof.
  intros Hr Hc. unfold generate_keywords.
  apply generate_keywords_from_without_client; [exact Hc | lia | lia].
Qed.

End TransformerFacts.

Lemma generate_keywords_without_client_witness :
  generate_keywords unit (fun c _ => (c, Ok (ChatResponse.mk None [])))
    (CourseTransformer_init unit tt true) Fixture.educ_100w 3
  = ([], with_stats unit (CourseTransformer_init unit tt true)
           (count_failed_keywords (stats (CourseTransformer_init unit tt true)))).
Proof.
  apply generate_keywords_without_client; [lia | reflexivity].
Defined.

(** ** Transformation *)

Lemma last_char_none (s : string) : last_char s = None <-> s = EmptyString.
Proof.
  split; [| now intros ->].
  induction s as [| c s IH]; [reflexivity |].
  cbn [last_char]. destruct s; [discriminate |].
  intros H. now specialize (IH H).
Qed.

Lemma generate_document_id_none (course : ProcessedCourse.t) (semester : string) :
  generate_document_id course semester = None <-> semester = EmptyString.
Proof.
  unfold generate_document_id. rewrite <- last_char_none.
  destruct (last_char semester); split; intros H; congruence.
Qed.

Section TransformFacts.

Variable Client : Type.
Variable create : Client -> KeywordPrompt -> Client * result ChatResponse.t.

Lemma transform_course_spec (self self' : CourseTransformer Client)
    (course : ProcessedCourse.t) (semester : string) (with_keywords : bool)
    (t : TransformedCourse.t) :
  transform_course Client create self course semester with_keywords
  = (Some t, self') ->
  TransformedCourse.course_code t = ProcessedCourse.course_code course
  /\ TransformedCourse.title t = ProcessedCourse.title course
  /\ TransformedCourse.metadata t = extract_metadata course
  /\ TransformedCourse.document t
     = format_document_text course (TransformedCourse.keywords t)
  /\ generate_document_id course semester = Some (TransformedCourse.id t)
  /\ len (TransformedCourse.keywords t) <= 8
  /\ Forall (fun k => clean_value k = true) (TransformedCourse.keywords t)
  /\ (with_keywords = false -> TransformedCourse.keywords t = []).
Proof.
  unfold transform_course.
  assert (Hk : forall r : list string * CourseTransformer Client,
            r = (if with_keywords
                 then generate_keywords Client create self course 3
                 else ([], self)) ->
            len (fst r) <= 8
            /\ Forall (fun k => clean_value k = true) (fst r)
            /\ (with_keywords = false -> fst r = [])).
  { intros r ->. destruct with_keywords.
    - unfold generate_keywords.
      match goal with
      | |- context [generate_keywords_from _ _ ?n ?a ?r ?p ?s] =>
          destruct (generate_keywords_from_outcome Client create n a r p s)
            as ([H | [content H]] & _)
      end; rewrite H.
      + split; [unfold len; cbn [length]; lia |].
        split; [constructor | discriminate].
      + split; [| split; [| discriminate]].
        * rewrite slice_to_nonneg by lia. unfold len.
          rewrite length_firstn. lia.
        * apply List.Forall_forall. intros k Hin. apply slice_to_incl in Hin.
          pose proof (parse_keywords_clean content) as Hall.
          rewrite List.Forall_forall in Hall. now apply Hall.
    - cbn [fst]. split; [unfold len; cbn [length]; lia |].
      split; [constructor | reflexivity]. }
  specialize (Hk _ eq_refl).
  destruct (if with_keywords then _ else _) as [keywords self1].
  cbn [fst] in Hk.
  destruct (generate_document_id course semester) as [doc_id |]; [| discriminate].
  intros H. injection H as <- <-.
  cbn [TransformedCourse.course_code TransformedCourse.title
       TransformedCourse.metadata TransformedCourse.document
       TransformedCourse.keywords TransformedCourse.id].
  repeat split; tauto.
Qed.

Lemma transform_each_spec (courses : list ProcessedCourse.t) :
  forall (self : CourseTransformer Client) (semester : string)
         (with_keywords : bool),
    match transform_each Client create self courses semester with_keywords with
    | (Some transformed, _) =>
        (courses = [] \/ semester <> EmptyString)
        /\ Forall2
             (fun course t =>
                exists self1 self2,
                  transform_course Client create self1 course semester
                    with_keywords = (Some t, self2))
             courses transformed
    | (None, _) => semester = EmptyString /\ courses <> []
    end.
Proof.
  induction courses as [| course rest IH]; intros self semester with_keywords.
  - cbn [transform_each]. split; [now left | constructor].
  - cbn [transform_each].
    destruct (transform_course Client create self course semester with_keywords)
      as [[t |] self1] eqn:E.
    + assert (Hsem : semester <> EmptyString).
      { apply transform_course_spec in E as (_ & _ & _ & _ & Hid & _).
        intros Hs. apply (proj2 (generate_document_id_none course semester)) in Hs.
        congruence. }
      specialize (IH self1 semester with_keywords).
      destruct (transform_each Client create self1 rest semester with_keywords)
        as [[ts |] self2].
      * split; [now right |]. constructor; [eauto | apply IH].
      * tauto.
    + split; [| discriminate].
      unfold transform_course in E.
      destruct (if with_keywords then _ else _) as [keywords self2].
      destruct (generate_document_id course semester) eqn:Eid; [discriminate |].
      now apply generate_document_id_none in Eid.
Qed.


(** X24: when [transform_all] returns, it returns one document for each
    course, in the order of the courses; a document carries the code,
    title and metadata of its course, the text that
    [format_document_text] makes of the course and the keywords, and at
    most eight keywords, none without the service; the statistics count
    every course as transformed. *)
Theorem transform_all_spec (self self' : CourseTransformer Client)
    (courses : list ProcessedCourse.t) (semester : string)
    (with_keywords : bool) (transformed : list TransformedCourse.t) :
  transform_all Client create self courses semester with_keywords
  = (Some transformed, self') ->
  Forall2
    (fun course t =>
       TransformedCourse.course_code t = ProcessedCourse.course_code course
       /\ TransformedCourse.title t = ProcessedCourse.title course
       /\ TransformedCourse.metadata t = extract_metadata course
       /\ TransformedCourse.document t
          = format_document_text course (TransformedCourse.keywords t)
       /\ generate_document_id course semester = Some (TransformedCourse.id t)
       /\ len (TransformedCourse.keywords t) <= 8
       /\ (with_keywords = false -> TransformedCourse.keywords t = []))
    courses transformed
  /\ TransformStats.total_courses (stats self') = len courses
  /\ TransformStats.successful (stats self') = len courses.
Proof.
  unfold transform_all.
  pose proof (transform_each_spec courses self semester with_keywords) as H.
  destruct (transform_each Client create self courses semester with_keywords)
    as [[ts |] self1]; [| discriminate].
  destruct H as [_ H]. intros E. injection E as <- <-.
  assert (Hlen : len ts = len courses).
  { unfold len. f_equal. symmetry. eapply Forall2_length. exact H. }
  split.
  - eapply Forall2_impl; [exact H |].
    intros course t (self1' & self2 & Ht).
    apply transform_course_spec in Ht. tauto.
  - rewrite Hlen.
    destruct ts; cbn [stats with_stats]; destruct (stats self1); split; reflexivity.
Qed.

End TransformFacts.

Lemma transform_all_spec_witness :
  exists transformed self',
    transform_all nat
      (fun c _ =>
         (S c,
          match c with
          | O => Raise (ServiceError "rate limit")
          | S _ => Ok (ChatResponse.mk (Some 42)
                         [Some "Writing, Education , ,critical thinking"])
          end))
      (CourseTransformer_init nat 0%nat false) [Fixture.educ_100w] "1264" true
    = (Some transformed, self')
    /\ TransformStats.total_courses (stats self') = 1
    /\ TransformStats.successful (stats self') = 1.
Proof.
  match goal with
  | |- exists transformed self', transform_all ?C ?cr ?s ?cs ?sem ?wk = _ /\ _ =>
      pose proof (transform_all_spec C cr s _ cs sem wk _ eq_refl) as H
  end.
  eexists. eexists. split; [reflexivity |]. exact (proj2 H).
Defined.

(** ** The route *)




(** ** From the processed course to the recommended course *)

Lemma get_list_join (l : list string) :
  forallb plain_value l = true ->
  (if nonempty (join "," l) then split "," (join "," l) else []) = l.
Proof.
  destruct l as [| x l]; [reflexivity |]. intros H.
  assert (Hc : forallb comma_free (x :: l) = true).
  { apply forallb_forall. intros v Hin.
    rewrite forallb_forall in H. specialize (H v Hin).
    unfold plain_value in H. now apply andb_true_iff in H. }
  assert (Hx : nonempty x = true).
  { cbn [forallb] in H. apply andb_true_iff in H as [H _].
    unfold plain_value in H. now apply andb_true_iff in H. }
  rewrite split_join_comma by exact Hc.
  destruct l as [| y l]; [cbn [join String.concat]; now rewrite Hx |].
  rewrite join_cons2, nonempty_app_l by exact Hx. reflexivity.
Qed.

Lemma plain_WQBCode_values (codes : list WQBCode) :
  forallb plain_value (map WQBCode_value codes) = true.
Proof.
  induction codes as [| c codes IH]; [reflexivity |].
  cbn [map forallb]. rewrite IH. now destruct c.
Qed.

(** X26: the way of a course through the pipeline.  A processed course
    whose fields are single lines and whose campuses and delivery
    methods are non-empty and free of commas is transformed, stored
    with the metadata that [_prepare_metadata] makes of it, and found
    again: the course that [recommend] builds from the stored entry
    has the code, title, description, units, campuses, WQB codes,
    delivery methods and prerequisite flag of the processed course. *)
Theorem indexed_course_round_trip (Client : Type)
    (create : Client -> KeywordPrompt -> Client * result ChatResponse.t)
    (transformer transformer' : CourseTransformer Client)
    (course : ProcessedCourse.t) (semester : string) (with_keywords : bool)
    (t : TransformedCourse.t) (engine : QueryEngine) (query : string)
    (c : Candidate) (r : CourseResult.t) :
  transform_course Client create transformer course semester with_keywords
  = (Some t, transformer') ->
  single_line_fields course ->
  forallb plain_value (ProcessedCourse.campuses course) = true ->
  forallb plain_value (ProcessedCourse.delivery_methods course) = true ->
  metadata c = _prepare_metadata t ->
  document c = TransformedCourse.document t ->
  build_course engine query c = Ok r ->
  CourseResult.course_code r = ProcessedCourse.course_code course
  /\ CourseResult.title r = ProcessedCourse.title course
  /\ CourseResult.description r = ProcessedCourse.description course
  /\ CourseResult.units r = ProcessedCourse.units course
  /\ CourseResult.campus r = ProcessedCourse.campuses course
  /\ CourseResult.wqb r = map WQBCode_value (ProcessedCourse.wqb course)
  /\ CourseResult.delivery_methods r = ProcessedCourse.delivery_methods course
  /\ CourseResult.has_prerequisites r = ProcessedCourse.has_prerequisites course.
Proof.
  intros Ht Hlines Hcampuses Hdelivery Hmeta Hdoc H.
  apply transform_course_spec in Ht as (Hcode & Htitle & Hm & Hd & _).
  unfold build_course in H. rewrite Hmeta, Hdoc in H.
  destruct (generate_match_reason engine query _ _ _) as [reason |];
    [| discriminate].
  cbn [rbind] in H. unfold CourseResult_validate in H.
  destruct (_ && _); [| discriminate].
  injection H as <-.
  cbn [CourseResult.course_code CourseResult.title CourseResult.description
       CourseResult.units CourseResult.campus CourseResult.wqb
       CourseResult.delivery_methods CourseResult.has_prerequisites].
  unfold get_list.
  change (get_str (_prepare_metadata t) "course_code" "")
    with (TransformedCourse.course_code t).
  change (get_str (_prepare_metadata t) "title" "")
    with (TransformedCourse.title t).
  change (get_int (_prepare_metadata t) "units" 0)
    with (CourseMetadata.units (TransformedCourse.metadata t)).
  change (get_bool (_prepare_metadata t) "has_prerequisites" false)
    with (CourseMetadata.has_prerequisites (TransformedCourse.metadata t)).
  change (get_str (_prepare_metadata t) "campuses" "")
    with (join "," (CourseMetadata.campuses (TransformedCourse.metadata t))).
  change (get_str (_prepare_metadata t) "wqb" "")
    with (join "," (CourseMetadata.wqb (TransformedCourse.metadata t))).
  change (get_str (_prepare_metadata t) "delivery_methods" "")
    with (join "," (CourseMetadata.delivery_methods (TransformedCourse.metadata t))).
  rewrite Hcode, Htitle, Hm, Hd.
  cbn [extract_metadata CourseMetadata.units CourseMetadata.has_prerequisites
       CourseMetadata.campuses CourseMetadata.wqb CourseMetadata.delivery_methods].
  rewrite (get_list_join _ Hcampuses), (get_list_join _ Hdelivery).
  rewrite (get_list_join _ (plain_WQBCode_values (ProcessedCourse.wqb course))).
  rewrite (extract_description_format_document_text _ _ Hlines).
  repeat split.
Qed.

Lemma indexed_course_round_trip_witness :
  exists r,
    build_course (Fixture.mock_engine None []) "education"
      Indexed.candidate_educ_100w = Ok r
    /\ CourseResult.campus r = ["Burnaby"; "Surrey"]
    /\ CourseResult.wqb r = ["W"; "B-Soc"; "B-Hum"].
Proof.
  destruct (build_course (Fixture.mock_engine None []) "education"
              Indexed.candidate_educ_100w) as [r | e] eqn:E;
    [| vm_compute in E; discriminate E].
  exists r. split; [reflexivity |].
  pose proof (indexed_course_round_trip unit
                (fun c _ => (c, Ok (ChatResponse.mk None [])))
                (CourseTransformer_init unit tt true)
                (CourseTransformer_init unit tt true)
                Fixture.educ_100w "1264" false Indexed.transformed_educ_100w
                (Fixture.mock_engine None []) "education"
                Indexed.candidate_educ_100w r) as H.
  destruct H as (_ & _ & _ & _ & Hcampus & Hwqb & _);
    try reflexivity; try exact E.
  - repeat split; reflexivity.
  - split; [exact Hcampus | exact Hwqb].
Defined.

(** ** Indexing in batches *)

Lemma py_slice_nonneg {A} (l : list A) (i b : Z) :
  0 <= i -> 0 <= b ->
  py_slice l i (i + b) = firstn (Z.to_nat b) (skipn (Z.to_nat i) l).
Proof.
  intros Hi Hb. unfold py_slice, len.
  destruct (i <? 0) eqn:Ei; [apply Z.ltb_lt in Ei; lia |].
  destruct (i + b <? 0) eqn:Ej; [apply Z.ltb_lt in Ej; lia |].
  destruct (Z_le_gt_dec (Z.of_nat (length l)) i) as [Hout | Hin].
  - rewrite !skipn_all2 by lia. now rewrite !firstn_nil.
  - replace (Z.to_nat (Z.min i (Z.of_nat (length l)))) with (Z.to_nat i) by lia.
    destruct (Z_le_gt_dec (i + b) (Z.of_nat (length l))) as [Hj | Hj].
    + f_equal. lia.
    + rewrite !firstn_all2; [reflexivity | |]; rewrite length_skipn; lia.
Qed.

Lemma concat_chunks {A} (size n : nat) :
  forall l : list A,
    (length l <= n * size)%nat ->
    concat (map (fun k => firstn size (skipn (k * size) l)) (seq 0 n)) = l.
Proof.
  induction n as [| n IH]; intros l Hl.
  - destruct l; [reflexivity | cbn in Hl; lia].
  - cbn [seq map concat]. rewrite <- seq_shift, List.map_map.
    transitivity (firstn size l ++ skipn size l); [| apply firstn_skipn].
    f_equal.
    transitivity
      (concat (map (fun k => firstn size (skipn (k * size) (skipn size l)))
                 (seq 0 n)));
      [| apply IH; rewrite length_skipn; lia].
    f_equal. apply map_ext. intros k. f_equal.
    rewrite skipn_skipn. f_equal. lia.
Qed.

Lemma chunks_nonempty {A} (size n : nat) (l : list A) :
  (0 < size)%nat ->
  ((n - 1) * size < length l)%nat ->
  Forall (fun batch : list A => (0 < length batch <= size)%nat)
    (map (fun k => firstn size (skipn (k * size) l)) (seq 0 n)).
Proof.
  intros Hsize Hn. apply List.Forall_forall. intros batch Hin.
  apply in_map_iff in Hin as (k & <- & Hk). apply in_seq in Hk.
  rewrite length_firstn, length_skipn.
  assert (k * size <= (n - 1) * size)%nat by (apply Nat.mul_le_mono_r; lia).
  lia.
Qed.

Lemma py_range_batches {A} (l : list A) (batch_size : Z) :
  0 < batch_size ->
  exists indices,
    py_range 0 (len l) batch_size = Some indices
    /\ len indices = (len l + batch_size - 1) / batch_size
    /\ concat (map (fun i => py_slice l i (i + batch_size)) indices) = l
    /\ Forall (fun batch : list A => 0 < len batch <= batch_size)
         (map (fun i => py_slice l i (i + batch_size)) indices).
Proof.
  intros Hb. unfold py_range.
  destruct (batch_size =? 0) eqn:E0; [apply Z.eqb_eq in E0; lia |].
  destruct (0 <? batch_size) eqn:Epos; [| apply Z.ltb_ge in Epos; lia].
  eexists. split; [reflexivity |].
  set (n := Z.to_nat ((len l - 0 + batch_size - 1) / batch_size)).
  set (size := Z.to_nat batch_size).
  assert (Hlen : 0 <= len l) by (unfold len; lia).
  assert (Hq : 0 <= (len l - 0 + batch_size - 1) / batch_size)
    by (apply Z.div_pos; lia).
  assert (Hn : Z.of_nat n = (len l + batch_size - 1) / batch_size).
  { unfold n. rewrite Z2Nat.id by exact Hq. f_equal. lia. }
  assert (Hcover : (length l <= n * size)%nat).
  { assert (len l <= Z.of_nat n * batch_size); [| unfold len, size in *; nia].
    rewrite Hn.
    pose proof (Z.mul_div_le (len l + batch_size - 1) batch_size Hb).
    pose proof (Z.mod_pos_bound (len l + batch_size - 1) batch_size Hb).
    pose proof (Z.div_mod (len l + batch_size - 1) batch_size ltac:(lia)).
    nia. }
  assert (Hlast : l <> [] -> ((n - 1) * size < length l)%nat).
  { intros Hne.
    assert (0 < len l) by (unfold len; destruct l; [contradiction | cbn; lia]).
    assert ((Z.of_nat n - 1) * batch_size < len l); [| unfold len, size in *; nia].
    rewrite Hn.
    pose proof (Z.mul_div_le (len l + batch_size - 1) batch_size Hb).
    nia. }
  assert (Hmap : map (fun i => py_slice l i (i + batch_size))
                   (map (fun k => 0 + Z.of_nat k * batch_size) (seq 0 n))
                 = map (fun k => firstn size (skipn (k * size) l)) (seq 0 n)).
  { rewrite List.map_map. apply map_ext. intros k.
    rewrite py_slice_nonneg by nia. unfold size. do 2 f_equal. nia. }
  split; [unfold len at 1; rewrite length_map, length_seq; exact Hn |].
  rewrite Hmap. split; [now apply concat_chunks |].
  destruct l as [| x l'] eqn:El.
  - replace n with 0%nat; [constructor |].
    unfold n, len. cbn [length]. replace (0 - 0 + batch_size - 1) with (batch_size - 1) by lia.
    rewrite Z.div_small by lia. reflexivity.
  - eapply List.Forall_impl;
      [| apply (chunks_nonempty size n (x :: l')); [unfold size; lia |]].
    + intros batch. unfold len, size. lia.
    + apply Hlast. discriminate.
Qed.

Section IndexerFacts.

Variable Collection : Type.
Variable Chroma : Type.
Variable openai_embeddings_create :
  string -> list string -> result (list (list Q) * Z).
Variable delete_collection : Chroma -> string -> Chroma * result unit.
Variable get_or_create_collection :
  Chroma -> string -> string -> result (Chroma * Collection).
Variable upsert :
  Collection -> list string -> list (list Q) -> list string ->
  list (gmap string MetaValue) -> result Collection.

Lemma index_batch_counts (self self1 : CourseIndexer Collection Chroma)
    (batch : list TransformedCourse.t) (indexed : Z) :
  index_batch Collection Chroma openai_embeddings_create upsert self batch
  = Ok (indexed, self1) ->
  indexed = len batch
  /\ config self1 = config self
  /\ IndexingStats.total_documents (indexer_stats self1)
     = IndexingStats.total_documents (indexer_stats self)
  /\ IndexingStats.documents_indexed (indexer_stats self1)
     = IndexingStats.documents_indexed (indexer_stats self)
  /\ IndexingStats.embedding_batches (indexer_stats self1)
     = IndexingStats.embedding_batches (indexer_stats self).
Proof.
  unfold index_batch. destruct batch as [| t batch].
  - intros H. injection H as <- <-. repeat split.
  - unfold generate_embeddings.
    destruct (openai_embeddings_create _ _) as [[embeddings tokens] | e];
      [| discriminate].
    cbn [rbind fst snd collection set_indexer_stats].
    destruct (collection self) as [c |]; [| discriminate].
    destruct (upsert c _ _ _ _) as [c' | e]; [| discriminate].
    cbn [rbind]. intros H. injection H as <- <-.
    cbn [config indexer_stats set_collection set_indexer_stats].
    destruct (indexer_stats self). repeat split.
Qed.

Lemma index_batches_counts (courses : list TransformedCourse.t)
    (batch_size : Z) (indices : list Z) :
  forall self self' : CourseIndexer Collection Chroma,
    index_batches Collection Chroma openai_embeddings_create upsert self
      courses batch_size indices = Ok self' ->
    config self' = config self
    /\ IndexingStats.total_documents (indexer_stats self')
       = IndexingStats.total_documents (indexer_stats self)
    /\ IndexingStats.documents_indexed (indexer_stats self')
       = IndexingStats.documents_indexed (indexer_stats self)
         + len (concat (map (fun i => py_slice courses i (i + batch_size)) indices))
    /\ IndexingStats.embedding_batches (indexer_stats self')
       = IndexingStats.embedding_batches (indexer_stats self) + len indices.
Proof.
  induction indices as [| i rest IH]; intros self self' H.
  - injection H as <-. unfold len. cbn [map concat length]. repeat split; lia.
  - cbn [index_batches] in H.
    destruct (index_batch _ _ _ _ self _) as [[indexed self1] | e] eqn:E;
      [| discriminate].
    cbn [rbind] in H. apply IH in H as (Hc & Ht & Hd & Hb).
    apply index_batch_counts in E as (-> & Hc1 & Ht1 & Hd1 & Hb1).
    cbn [config indexer_stats set_indexer_stats] in Hc, Ht, Hd, Hb.
    rewrite Hc, Ht, Hd, Hb. clear Hc Ht Hd Hb.
    destruct (indexer_stats self1) eqn:Es.
    cbn [count_batch IndexingStats.total_documents
         IndexingStats.documents_indexed IndexingStats.embedding_batches] in *.
    rewrite Hc1, Ht1, Hd1, Hb1. cbn [map concat]. unfold len.
    rewrite length_app. cbn [length]. repeat split; lia.
Qed.

Lemma get_or_create_collection_config
    (self opened : CourseIndexer Collection Chroma) (recreate : bool) :
  _get_or_create_collection Collection Chroma delete_collection
    get_or_create_collection self recreate = Ok opened ->
  config opened = config self
  /\ indexer_stats opened = indexer_stats self
  /\ collection opened <> None.
Proof.
  unfold _get_or_create_collection.
  destruct (get_or_create_collection _ _ _) as [[client c] | e]; [| discriminate].
  cbn [rbind]. intros H. injection H as <-. repeat split. discriminate.
Qed.

(** X27: [index_all] with a positive batch size, when it returns: the
    courses were cut, in their order, into batches that are not empty
    and not longer than the batch size; the statistics count one
    embedding batch for each of them, the number of batches being the
    number of courses divided by the batch size, rounded up; every
    course is counted as indexed, on top of what the indexer had
    counted before; and the first five identifiers are reported. *)
Theorem index_all_batches (self self' : CourseIndexer Collection Chroma)
    (courses : list TransformedCourse.t) (semester : string)
    (recreate : bool) (elapsed : Q) (output : IndexOutput.t) :
  0 < IndexingConfig.batch_size (config self) ->
  index_all Collection Chroma openai_embeddings_create delete_collection
    get_or_create_collection upsert self courses semester recreate elapsed
  = inr (output, self') ->
  let batch_size := IndexingConfig.batch_size (config self) in
  (exists batches,
     concat batches = courses
     /\ Forall (fun batch : list TransformedCourse.t =>
                  0 < len batch <= batch_size) batches
     /\ len batches = (len courses + batch_size - 1) / batch_size
     /\ IndexingStats.embedding_batches (IndexOutput.stats output)
        = IndexingStats.embedding_batches (indexer_stats self) + len batches)
  /\ IndexingStats.total_documents (IndexOutput.stats output) = len courses
  /\ IndexingStats.documents_indexed (IndexOutput.stats output)
     = IndexingStats.documents_indexed (indexer_stats self) + len courses
  /\ IndexingStats.total_embeddings_generated (IndexOutput.stats output)
     = IndexingStats.documents_indexed (IndexOutput.stats output)
  /\ IndexOutput.sample_ids output = map TransformedCourse.id (firstn 5 courses)
  /\ indexer_stats self' = IndexOutput.stats output.
Proof.
  intros Hb H. cbv zeta. unfold index_all in H.
  destruct (_get_or_create_collection _ _ _ _ self recreate) as [opened | e] eqn:Eo;
    [| discriminate].
  apply get_or_create_collection_config in Eo as (Hconfig & Hstats & _).
  cbn [config set_indexer_stats] in H. rewrite Hconfig in H.
  destruct (py_range_batches courses (IndexingConfig.batch_size (config self)) Hb)
    as (indices & Hrange & Hlen & Hconcat & Hall).
  rewrite Hrange in H.
  destruct (index_batches _ _ _ _ _ courses _ indices) as [self1 |] eqn:El;
    [| discriminate].
  apply index_batches_counts in El as (Hc & Ht & Hd & Hn).
  rewrite Hconcat in Hd.
  cbn [config indexer_stats set_indexer_stats] in Hc, Ht, Hd, Hn.
  rewrite Hstats in Ht, Hd, Hn.
  injection H as <- <-.
  cbn [IndexOutput.stats IndexOutput.sample_ids indexer_stats set_indexer_stats].
  destruct (indexer_stats self1) eqn:Es. destruct (indexer_stats self) eqn:Es0.
  cbn [set_total_documents close_stats IndexingStats.total_documents
       IndexingStats.documents_indexed IndexingStats.embedding_batches
       IndexingStats.total_embeddings_generated] in *.
  split; [| split; [| split; [| split; [| split]]]].
  - eexists. split; [exact Hconcat |]. split; [exact Hall |].
    assert (Hbatches : forall f : Z -> list TransformedCourse.t,
              len (map f indices) = len indices)
      by (intros f; unfold len; now rewrite length_map).
    rewrite Hbatches. split; [exact Hlen | exact Hn].
  - exact Ht.
  - exact Hd.
  - reflexivity.
  - f_equal. change 5 with (0 + 5). rewrite py_slice_nonneg by lia. reflexivity.
  - reflexivity.
Qed.

(** X28: [index_all] with a batch size that is not positive.  With
    batch size zero it raises, [range] refusing the step.  With a
    negative batch size it returns without having indexed anything:
    no batch is counted, no course is counted as indexed, whatever
    the number of courses, which it reports as the total. *)
Theorem index_all_without_batches (self : CourseIndexer Collection Chroma)
    (courses : list TransformedCourse.t) (semester : string)
    (recreate : bool) (elapsed : Q) :
  IndexingConfig.batch_size (config self) <= 0 ->
  match
    index_all Collection Chroma openai_embeddings_create delete_collection
      get_or_create_collection upsert self courses semester recreate elapsed
  with
  | inl ValueError => IndexingConfig.batch_size (config self) = 0
  | inl (Raised e) =>
      _get_or_create_collection Collection Chroma delete_collection
        get_or_create_collection self recreate = Raise e
  | inr (output, self') =>
      IndexingConfig.batch_size (config self) < 0
      /\ IndexingStats.total_documents (IndexOutput.stats output) = len courses
      /\ IndexingStats.documents_indexed (IndexOutput.stats output)
         = IndexingStats.documents_indexed (indexer_stats self)
      /\ IndexingStats.embedding_batches (IndexOutput.stats output)
         = IndexingStats.embedding_batches (indexer_stats self)
      /\ exists opened,
           _get_or_create_collection Collection Chroma delete_collection
             get_or_create_collection self recreate = Ok opened
           /\ collection self' = collection opened
  end.
Proof.
  intros Hb. unfold index_all.
  destruct (_get_or_create_collection _ _ _ _ self recreate) as [opened | e] eqn:Eo;
    [| reflexivity].
  pose proof Eo as Ho.
  apply get_or_create_collection_config in Ho as (Hconfig & Hstats & _).
  cbn [config set_indexer_stats]. rewrite Hconfig.
  unfold py_range.
  destruct (IndexingConfig.batch_size (config self) =? 0) eqn:E0;
    [now apply Z.eqb_eq in E0 |].
  apply Z.eqb_neq in E0.
  destruct (0 <? IndexingConfig.batch_size (config self)) eqn:Epos;
    [apply Z.ltb_lt in Epos; lia |].
  assert (Hlen : 0 <= len courses) by (unfold len; lia).
  replace (Z.to_nat _) with 0%nat.
  - cbn [seq map index_batches IndexOutput.stats indexer_stats set_indexer_stats
         collection].
    rewrite Hstats. destruct (indexer_stats self).
    split; [lia |]. repeat split. exists opened. split; reflexivity.
  - symmetry.
    assert ((0 - len courses - IndexingConfig.batch_size (config self) - 1)
            / - IndexingConfig.batch_size (config self) <= 0); [| lia].
    destruct (Z.eq_dec (len courses) 0) as [Hz | Hz].
    + rewrite Hz. replace (0 - 0 - IndexingConfig.batch_size (config self) - 1)
        with (- IndexingConfig.batch_size (config self) - 1) by lia.
      rewrite Z.div_small by lia. lia.
    + apply Z.lt_succ_r. apply Z.div_lt_upper_bound; lia.
Qed.

End IndexerFacts.

Lemma index_all_batches_witness :
  exists output self',
    Recording.index_all 2
      [Indexed.transformed_educ_100w; Indexed.transformed_educ_100w;
       Indexed.transformed_educ_100w]
    = inr (output, self')
    /\ IndexingStats.documents_indexed (IndexOutput.stats output) = 0 + 3
    /\ IndexingStats.total_embeddings_generated (IndexOutput.stats output)
       = IndexingStats.documents_indexed (IndexOutput.stats output).
Proof.
  unfold Recording.index_all.
  match goal with
  | |- exists output self', index_all ?C ?Ch ?e ?d ?g ?u ?s ?cs ?sem ?r ?el = _ /\ _ =>
      pose proof (fun H => index_all_batches C Ch e d g u s _ cs sem r el _ H eq_refl)
        as H
  end.
  eexists. eexists. split; [reflexivity |].
  specialize (H ltac:(cbn; lia)).
  destruct H as (_ & _ & Hd & Hg & _). split; [exact Hd | exact Hg].
Defined.

Lemma index_all_without_batches_witness :
  match Recording.index_all (-1) [Indexed.transformed_educ_100w] with
  | inr (output, self') =>
      IndexingStats.total_documents (IndexOutput.stats output) = 1
      /\ IndexingStats.documents_indexed (IndexOutput.stats output) = 0
      /\ collection self' = Some []
  | inl _ => False
  end.
Proof.
  unfold Recording.index_all.
  pose proof (index_all_without_batches (list string) unit
                Recording.embeddings_create Recording.delete_collection
                Recording.get_or_create_collection Recording.upsert
                (Recording.indexer (-1)) [Indexed.transformed_educ_100w]
                "1264" true 2 ltac:(cbn; lia)) as H.
  destruct (index_all _ _ _ _ _ _ _ _ _ _ _) as [e | [output self']] eqn:E.
  - vm_compute in E. discriminate E.
  - destruct H as (_ & Ht & Hd & _ & opened & Ho & Hc).
    split; [exact Ht |]. split; [exact Hd |].
    rewrite Hc. vm_compute in Ho. injection Ho as <-. reflexivity.
Defined.

(** ** From the listing to the preprocessor *)






